(** * DataValidator (src/data_pipeline/validation.py) and the CSV ingester
      (src/data_pipeline/ingestion.py)

    A shallow embedding of the [DataValidator] class of the healthcare ML
    system and the properties of its public methods, followed by the
    [DataIngester] / [CSVIngester] classes run against an abstract file
    system, pandas and clock.

    Python dict objects are mutable and passed by reference, so they live
    in a store ([heap]) and the methods receive locations.  Methods are
    computations in a state-and-exception monad over that store and the
    audit logger. *)

From stdpp Require Import base gmap strings pretty list.
From Stdlib Require Import PrimFloat.

Set Warnings "-register-all".
Local Open Scope string_scope.
Local Open Scope Z_scope.

(** * Definitions *)

(** ** Python values *)

(** The values a record, a schema or a configuration can hold
    ([Dict[str, Any]] restricted to JSON-like data).  [float] is the IEEE
    binary64 type of Python; nested lists and dicts are immutable trees here,
    only the top-level dicts handed to the validator are store objects. *)
Inductive value :=
| VNone
| VBool (b : bool)
| VInt (n : Z)
| VFloat (x : float)
| VStr (s : string)
| VList (xs : list value)
| VDict (kvs : list (string * value)).

Definition loc := positive.

(** A dict object: keys are strings throughout the module. *)
Abbreviation pydict := (gmap string value).

(** ** Exceptions *)

(** [KeyError] and [TypeError] are what the dict subscripts and [+=] of the
    module can raise.  [TypeError], [ValueError] and [OSError] (a subclass,
    by name: FileNotFoundError, PermissionError, ...) are what
    [logging.basicConfig] can raise when it opens the audit file.
    [NotImplementedError] is what the test-suite expects of [detect_phi];
    [ConfigurationError] is the construction-time fault the specification
    names.  No code path of the module builds either of these two. *)
Inductive exn :=
| KeyError (k : string)
| TypeError
| ValueError
| OSError (name : string)
| NotImplementedError
| ConfigurationError.

(** ** The store and the audit logger *)

Inductive level := INFO | WARNING.

(** [logger] is the module-level [logging.getLogger(__name__)]; it is
    modelled as the append-only list of the records it was handed, newest
    last.  Writing a record to the file sink raises nothing ([logging]
    handles the faults of its handlers itself); opening the sink does, see
    [basicConfig]. *)
Record world := World {
  heap : gmap loc pydict;
  logger : list (level * string)
}.

(** Outcome of a computation: normal return, a raised exception (with the
    world as the code left it), or [Undefined] when the code was handed a
    reference that designates no dict object of the store. *)
Inductive result (A : Type) :=
| Ok (a : A) (w : world)
| Raise (e : exn) (w : world)
| Undefined.
Arguments Ok {A} a w.
Arguments Raise {A} e w.
Arguments Undefined {A}.

Definition M (A : Type) : Type := world → result A.

Definition ret {A} (a : A) : M A := λ w, Ok a w.

Definition bind {A B} (m : M A) (k : A → M B) : M B := λ w,
  match m w with
  | Ok a w' => k a w'
  | Raise e w' => Raise e w'
  | Undefined => Undefined
  end.

#[global] Instance M_ret : MRet M := @ret.
#[global] Instance M_bind : MBind M := λ A B k m, bind m k.

Definition raise {A} (e : exn) : M A := λ w, Raise e w.

(** ** Store primitives *)

Definition deref (l : loc) : M pydict := λ w,
  match heap w !! l with
  | Some d => Ok d w
  | None => Undefined
  end.

Definition store (l : loc) (d : pydict) : M unit := λ w,
  Ok tt (World (<[l := d]> (heap w)) (logger w)).

(** A dict display [{...}]: a new object at an unused location. *)
Definition alloc (d : pydict) : M loc := λ w,
  let l := fresh (dom (heap w)) in
  Ok l (World (<[l := d]> (heap w)) (logger w)).

(** [len(d)] *)
Definition len (l : loc) : M nat :=
  d ← deref l; mret (size d).

(** [d[k]] *)
Definition getitem (l : loc) (k : string) : M value :=
  d ← deref l;
  match d !! k with
  | Some v => mret v
  | None => raise (KeyError k)
  end.

(** [d[k] = v] *)
Definition setitem (l : loc) (k : string) (v : value) : M unit :=
  d ← deref l; store l (<[k := v]> d).

(** [d.get(k, default)] *)
Definition get (l : loc) (k : string) (dflt : value) : M value :=
  d ← deref l; mret (default dflt (d !! k)).

(** [v + 1] for the int literal [1]: ints and bools (a bool is an int) add
    exactly, a float adds in binary64, anything else is a [TypeError]. *)
Definition add1 (v : value) : M value :=
  match v with
  | VInt n => mret (VInt (n + 1))
  | VBool b => mret (VInt ((if b then 1 else 0) + 1))
  | VFloat x => mret (VFloat (x + 1)%float)
  | _ => raise TypeError
  end.

(** [d[k] += 1]: subscript, add, store back. *)
Definition iadd1_item (l : loc) (k : string) : M unit :=
  v ← getitem l k;
  v' ← add1 v;
  setitem l k v'.

(** [logger.info(msg)], [logger.warning(msg)] *)
Definition info (msg : string) : M unit := λ w,
  Ok tt (World (heap w) (logger w ++ [(INFO, msg)])).

Definition warning (msg : string) : M unit := λ w,
  Ok tt (World (heap w) (logger w ++ [(WARNING, msg)])).

(** [repr] of a list of field names as an f-string renders it.  Exact for
    names without quotes, backslashes or non-printable characters. *)
Fixpoint repr_items (xs : list string) : string :=
  match xs with
  | [] => EmptyString
  | [x] => "'" +:+ x +:+ "'"
  | x :: rest => "'" +:+ x +:+ "', " +:+ repr_items rest
  end.

Definition repr_list (xs : list string) : string :=
  "[" +:+ repr_items xs +:+ "]".

(** ** The validator object *)

(** The attributes [__init__] binds.  [config] and [validation_stats] are
    references to dict objects. *)
Record DataValidator := Validator {
  config : loc;
  audit_log_path : value;
  strict_mode : value;
  validation_stats : loc
}.

(** The dict display of lines 76-81 and 271-276. *)
Definition stats_dict (t p f wn : Z) : pydict :=
  <["total_validations" := VInt t]>
    (<["passed" := VInt p]>
      (<["failed" := VInt f]>
        (<["warnings" := VInt wn]> ∅))).

Definition zero_stats : pydict := stats_dict 0 0 0 0.

(** What opening the audit file can raise: [TypeError] for a filename that
    is no path (a number, [None]), [ValueError] for a path with a null
    character, an [OSError] when the file cannot be opened. *)
Inductive sink_fault :=
| NotAPath
| MalformedPath
| CannotOpen (name : string).

Definition sink_exn (f : sink_fault) : exn :=
  match f with
  | NotAPath => TypeError
  | MalformedPath => ValueError
  | CannotOpen name => OSError name
  end.

(** The file system and the state of the root logger as one construction
    meets them: the fault of [logging.basicConfig(filename=...)] for a
    filename, if any.  ([basicConfig] opens no file, and so answers [None],
    when the root logger already has a handler.) *)
Definition sink := value → option sink_fault.

(** [logging.basicConfig(filename=filename, level=..., format=...)] *)
Definition basicConfig (open_sink : sink) (filename : value) : M unit :=
  match open_sink filename with
  | Some f => raise (sink_exn f)
  | None => mret tt
  end.

(** [_setup_audit_logging]: [basicConfig] opens the sink at
    [self.audit_log_path], then the logger records the initialisation. *)
Definition _setup_audit_logging (open_sink : sink) (audit_log_path : value)
  : M unit :=
  basicConfig open_sink audit_log_path;;
  info "DataValidator initialized".

(** [config or {}]: [None] and an empty dict are falsy and give a new empty
    dict, any other dict is kept (by reference). *)
Definition config_or_empty (cfg : option loc) : M loc :=
  match cfg with
  | None => alloc ∅
  | Some l =>
      d ← deref l;
      if decide (size d = 0%nat) then alloc ∅ else mret l
  end.

Definition __init__ (open_sink : sink) (cfg : option loc) : M DataValidator :=
  c ← config_or_empty cfg;
  path ← get c "audit_log_path" (VStr "validation_audit.log");
  strict ← get c "strict_mode" (VBool true);
  _setup_audit_logging open_sink path;;
  s ← alloc zero_stats;
  mret (Validator c path strict s).

(** ** Methods *)

Definition validate_schema (self : DataValidator) (data schema : loc)
  : M (bool * list string) :=
  let errors : list string := [] in
  n ← len data;
  info ("Schema validation requested for data with " +:+ pretty n +:+ " fields");;
  iadd1_item (validation_stats self) "total_validations";;
  iadd1_item (validation_stats self) "passed";;
  mret (true, errors).

Definition detect_phi (self : DataValidator) (data : loc)
  : M (bool * list string) :=
  let detected_fields : list string := [] in
  n ← len data;
  info ("PHI detection scan initiated for " +:+ pretty n +:+ " fields");;
  let phi_detected := (0 <? length detected_fields)%nat in
  (if phi_detected then
     warning ("PHI detected in fields: " +:+ repr_list detected_fields);;
     iadd1_item (validation_stats self) "warnings"
   else mret tt);;
  mret (phi_detected, detected_fields).

(** The dict display of lines 242-248. *)
Definition quality_report_dict : pydict :=
  <["completeness_score" := VFloat 0%float]>
    (<["consistency_score" := VFloat 0%float]>
      (<["accuracy_score" := VFloat 0%float]>
        (<["overall_score" := VFloat 0%float]>
          (<["issues" := VList []]> ∅)))).

Definition validate_data_quality (self : DataValidator) (data : loc) : M loc :=
  quality_report ← alloc quality_report_dict;
  info "Data quality assessment initiated";;
  mret quality_report.

(** [dict.copy()]: a new dict object with the same items. *)
Definition copy (l : loc) : M loc :=
  d ← deref l; alloc d.

Definition get_validation_statistics (self : DataValidator) : M loc :=
  copy (validation_stats self).

(** Rebinds the attribute to a new dict; the method returns [None], the
    model hands back the validator with the rebound attribute. *)
Definition reset_statistics (self : DataValidator) : M DataValidator :=
  s ← alloc zero_stats;
  info "Validation statistics reset";;
  mret (Validator (config self) (audit_log_path self) (strict_mode self) s).

(** Unfolds the monad operations down to the match on outcomes. *)
Ltac unfold_M :=
  unfold mbind, mret, M_bind, M_ret, bind, ret, raise in *.

(** ** Sequences of calls and reachable states *)

(** The public methods, as a caller invokes them on one validator. *)
Inductive call :=
| ValidateSchema (data schema : loc)
| DetectPhi (data : loc)
| ValidateDataQuality (data : loc)
| GetValidationStatistics
| ResetStatistics.

(** One call; the value it returns is dropped, the validator is handed on
    (only [reset_statistics] rebinds an attribute). *)
Definition perform (c : call) (self : DataValidator) : M DataValidator :=
  match c with
  | ValidateSchema data schema => validate_schema self data schema;; mret self
  | DetectPhi data => detect_phi self data;; mret self
  | ValidateDataQuality data => validate_data_quality self data;; mret self
  | GetValidationStatistics => get_validation_statistics self;; mret self
  | ResetStatistics => reset_statistics self
  end.

Fixpoint perform_all (cs : list call) (self : DataValidator) : M DataValidator :=
  match cs with
  | [] => mret self
  | c :: cs' => self' ← perform c self; perform_all cs' self'
  end.

(** How many calls of a sequence are [validate_schema] calls. *)
Fixpoint validations (cs : list call) : nat :=
  match cs with
  | [] => 0
  | ValidateSchema _ _ :: cs' => S (validations cs')
  | _ :: cs' => validations cs'
  end.

(** A call that hands over a record of the store and is not a reset. *)
Definition record_call (w : world) (c : call) : Prop :=
  match c with
  | ValidateSchema data _ | DetectPhi data => is_Some (heap w !! data)
  | ValidateDataQuality _ | GetValidationStatistics => True
  | ResetStatistics => False
  end.

(** The validator's statistics dict holds its four int counters. *)
Definition counters (self : DataValidator) (w : world) (t p f wn : Z) : Prop :=
  heap w !! validation_stats self = Some (stats_dict t p f wn).

Definition counters_ok (self : DataValidator) (w : world) : Prop :=
  ∃ t p f wn, counters self w t p f wn.

(** The states a validator and its store go through: construction, method
    calls, and the caller building dicts or changing dicts it holds.  The
    methods hand out no reference to the statistics dict, so the caller
    changes other objects only. *)
Inductive reachable : DataValidator → world → Prop :=
| reach_init open_sink cfg w0 self w :
    __init__ open_sink cfg w0 = Ok self w →
    reachable self w
| reach_call c self w self' w' :
    reachable self w →
    perform c self w = Ok self' w' →
    reachable self' w'
| reach_new d self w l w' :
    reachable self w →
    alloc d w = Ok l w' →
    reachable self w'
| reach_mutate l d self w :
    reachable self w →
    is_Some (heap w !! l) →
    l ≠ validation_stats self →
    reachable self (World (<[l := d]> (heap w)) (logger w)).

(** ** Fixtures (tests/test_data_pipeline.py) *)

(** Modelled from the spec: data/schemas/patient_schema.json is not part of
    the sources.  The schema of the end-to-end scenarios, requiring
    [patient_id], [age] and [diagnosis_code], in the format the docstring of
    [validate_schema] gives (field name to type / required). *)
Definition patient_schema : pydict :=
  <["patient_id" := VDict [("type", VStr "string"); ("required", VBool true)]]>
    (<["age" := VDict [("type", VStr "integer"); ("required", VBool true)]]>
      (<["diagnosis_code" := VDict [("type", VStr "string"); ("required", VBool true)]]> ∅)).

(** [valid_record] of [test_valid_record_ingestion]. *)
Definition valid_record : pydict :=
  <["patient_id" := VStr "P123456"]>
    (<["age" := VInt 45]>
      (<["gender" := VStr "F"]>
        (<["diagnosis_code" := VStr "E11.9"]>
          (<["medication_list" := VList [VStr "metformin"; VStr "lisinopril"]]>
            (<["lab_results" := VDict [("glucose", VInt 120); ("hba1c", VFloat 6.5%float)]]>
              (<["visit_date" := VStr "2025-10-15"]> ∅)))))).

(** A store holding one record (at 1) and the schema (at 2). *)
Definition store_with (record : pydict) : world :=
  World (<[1%positive := record]> (<[2%positive := patient_schema]> ∅)) [].

(** The validator of [setUpClass], [DataValidator(cls.schema)], and the
    world it leaves. *)
Definition test_validator : DataValidator :=
  Validator 2%positive (VStr "validation_audit.log") (VBool true) 3%positive.

Definition after_setup (record : pydict) : world :=
  World (<[3%positive := zero_stats]> (heap (store_with record)))
        [(INFO, "DataValidator initialized")].

(** ** The caller changing a dict it holds *)

(** Any change the caller makes to the dict object at [l] (item assignment,
    deletion, [clear], [update], ...) leaves some dict [d'] there. *)
Definition caller_mutates (l : loc) (d' : pydict) (w : world) : world :=
  World (<[l := d']> (heap w)) (logger w).

(** Two worlds with the same objects, holding the same items except possibly
    in the dict at [l]. *)
Definition agree_off (l : loc) (w w' : world) : Prop :=
  dom (heap w) = dom (heap w') ∧ ∀ l', l' ≠ l → heap w !! l' = heap w' !! l'.

(** ** What a schema declares (docstring of [validate_schema], line 125) *)

(** [spec[key]] of a field specification, a nested dict. *)
Fixpoint assoc (key : string) (kvs : list (string * value)) : option value :=
  match kvs with
  | [] => None
  | (k, v) :: rest => if decide (k = key) then Some v else assoc key rest
  end.

Definition field_option (schema : pydict) (field key : string) : option value :=
  match schema !! field with
  | Some (VDict kvs) => assoc key kvs
  | _ => None
  end.

Definition is_required (schema : pydict) (field : string) : bool :=
  match field_option schema field "required" with
  | Some (VBool true) => true
  | _ => false
  end.

Definition declared_type (schema : pydict) (field : string) : option string :=
  match field_option schema field "type" with
  | Some (VStr ty) => Some ty
  | _ => None
  end.

(** The completeness of the specification (4.3), as two counts: the required
    fields the schema declares, and those of them the record holds. *)
Definition spec_required_declared (schema : pydict) : list string :=
  filter (λ f, is_required schema f = true) (map_to_list schema).*1.

Definition spec_required_present (schema record : pydict) : list string :=
  filter (λ f, is_Some (record !! f)) (spec_required_declared schema).

(** ** Records of the test-suite *)

(** [invalid_record] of [test_schema_validation_missing_required_field]. *)
Definition record_missing_diagnosis_code : pydict :=
  <["patient_id" := VStr "P123456"]>
    (<["age" := VInt 45]>
      (<["gender" := VStr "F"]>
        (<["medication_list" := VList [VStr "metformin"]]>
          (<["visit_date" := VStr "2025-10-15"]> ∅)))).

(** [invalid_record] of [test_schema_validation_incorrect_type]. *)
Definition record_age_as_string : pydict :=
  <["patient_id" := VStr "P123456"]>
    (<["age" := VStr "forty-five"]>
      (<["gender" := VStr "F"]>
        (<["diagnosis_code" := VStr "E11.9"]>
          (<["medication_list" := VList [VStr "metformin"]]>
            (<["visit_date" := VStr "2025-10-15"]> ∅))))).

(** [record_with_ssn] of [test_phi_detection_ssn_placeholder]. *)
Definition record_with_ssn : pydict :=
  <["patient_id" := VStr "P123456"]>
    (<["age" := VInt 45]>
      (<["gender" := VStr "F"]>
        (<["diagnosis_code" := VStr "E11.9"]>
          (<["ssn" := VStr "123-45-6789"]>
            (<["medication_list" := VList [VStr "metformin"]]>
              (<["visit_date" := VStr "2025-10-15"]> ∅)))))).

(** An environment in which the audit file can be opened. *)
Definition writable : sink := λ _, None.

(** Construct the validator as [setUpClass] does, then make one call. *)
Definition construct_then {A} (k : DataValidator → M A) : M A :=
  self ← __init__ writable (Some 2%positive); k self.

(** ** Which exceptions a computation can raise *)

(** Every exception [m] raises, from any world, satisfies [P]. *)
Definition raises_only {A} (P : exn → Prop) (m : M A) : Prop :=
  ∀ w e w', m w = Raise e w' → P e.

(** The faults of a dict subscript and of [+=]. *)
Definition subscript_fault (e : exn) : Prop :=
  match e with
  | KeyError _ | TypeError => True
  | _ => False
  end.

(** The faults of opening the audit file. *)
Definition sink_raised (e : exn) : Prop := ∃ f, e = sink_exn f.

Create HintDb raises.

(** ** Construction and the configuration *)

(** The configuration handed to [__init__] is falsy: [None] or an empty
    dict of the store. *)
Definition falsy_config (cfg : option loc) (w : world) : Prop :=
  match cfg with
  | None => True
  | Some l => heap w !! l = Some ∅
  end.

(** The construction-time contract the specification words: handed this
    configuration, [__init__] raises [ConfigurationError]. *)
Definition raises_configuration_error (open_sink : sink) (cfg : option loc)
    (w : world) : Prop :=
  ∃ w', __init__ open_sink cfg w = Raise ConfigurationError w'.

(** An environment in which no audit file can be opened for writing. *)
Definition read_only : sink := λ _, Some (CannotOpen "PermissionError").

(** An environment that opens every string path and refuses a filename of
    any other type, as [os.fspath] does. *)
Definition paths_only : sink := λ filename,
  match filename with
  | VStr _ => None
  | _ => Some NotAPath
  end.

(** A store whose only object is the configuration
    [{'audit_log_path': 123}], at location 1. *)
Definition store_with_numeric_path : world :=
  World (<[1%positive := <["audit_log_path" := VInt 123]> ∅]> ∅) [].

(** A store whose only object is an empty dict, at location 1. *)
Definition store_with_empty_schema : world :=
  World (<[1%positive := ∅]> ∅) [].

(** ** Effects of a call sequence *)

(** A call whose record argument is a dict of the store. *)
Definition store_call (w : world) (c : call) : Prop :=
  match c with
  | ValidateSchema data _ | DetectPhi data => is_Some (heap w !! data)
  | ValidateDataQuality _ | GetValidationStatistics | ResetStatistics => True
  end.

Definition is_reset (c : call) : bool :=
  match c with
  | ResetStatistics => true
  | _ => false
  end.

Definition has_reset (cs : list call) : bool := existsb is_reset cs.

(** The [validate_schema] calls made after the last [reset_statistics]. *)
Fixpoint since_reset (cs : list call) : nat :=
  match cs with
  | [] => 0
  | c :: cs' => if has_reset cs' then since_reset cs' else validations (c :: cs')
  end.

(** The audit records a call writes: one for every method but
    [get_validation_statistics]. *)
Definition logged (c : call) : nat :=
  match c with
  | GetValidationStatistics => 0
  | _ => 1
  end.

Definition logged_all (cs : list call) : nat := sum_list (logged <$> cs).

(** A validator whose statistics dict lost its [passed] counter (the
    attribute is public: [del validator.validation_stats['passed']]). *)
Definition after_setup_without_passed (record : pydict) : world :=
  World (<[3%positive := delete "passed" zero_stats]> (heap (store_with record)))
        [(INFO, "DataValidator initialized")].

(** ** Data ingestion (src/data_pipeline/ingestion.py) *)

(** The ingesters run against a file system, pandas and a clock.  These are
    taken as an [environment]: what [os.path.exists], [pd.read_csv],
    [os.path.getsize], the n-th [datetime.utcnow().isoformat()] and the
    rendering of a dict in an f-string answer during one call.  Nothing is
    assumed of them. *)
Module Ingestion.

(** A raised exception object: [type(e).__name__], [str(e)], and whether it
    derives from [Exception] (what [except Exception] catches). *)
Record exc := Exc {
  exc_name : string;
  exc_message : string;
  is_Exception : bool
}.

(** What the code reads of a [pd.DataFrame]: its column labels and rows. *)
Record DataFrame := Frame {
  df_columns : list value;
  df_rows : list (list value)
}.

Record environment := Environment {
  path_exists : string → bool;
  read_csv : string → list (string * value) → exc + DataFrame;
  getsize : string → exc + Z;
  utcnow_isoformat : nat → string;
  render : list (string * value) → string
}.

(** Dict objects, the records handed to the logger, and how many times the
    clock was read. *)
Record state := State {
  objects : gmap loc pydict;
  records : list (level * string);
  ticks : nat
}.

Inductive outcome (A : Type) :=
| Returns (a : A) (st : state)
| Raises (e : exc) (st : state)
| Dangling.
Arguments Returns {A} a st.
Arguments Raises {A} e st.
Arguments Dangling {A}.

Definition IM (A : Type) : Type := state → outcome A.

Definition ret {A} (a : A) : IM A := λ st, Returns a st.

Definition bind {A B} (m : IM A) (k : A → IM B) : IM B := λ st,
  match m st with
  | Returns a st' => k a st'
  | Raises e st' => Raises e st'
  | Dangling => Dangling
  end.

#[global] Instance IM_ret : MRet IM := @ret.
#[global] Instance IM_bind : MBind IM := λ A B k m, bind m k.

Definition raise {A} (e : exc) : IM A := λ st, Raises e st.

(** [try: body except Exception as e: handler(e)] *)
Definition try_except {A} (body : IM A) (handler : exc → IM A) : IM A := λ st,
  match body st with
  | Raises e st' => if is_Exception e then handler e st' else Raises e st'
  | r => r
  end.

(** The result of a library call: a value or a raised exception. *)
Definition lift {A} (r : exc + A) : IM A :=
  match r with
  | inl e => raise e
  | inr a => ret a
  end.

Definition deref (l : loc) : IM pydict := λ st,
  match objects st !! l with
  | Some d => Returns d st
  | None => Dangling
  end.

Definition store (l : loc) (d : pydict) : IM unit := λ st,
  Returns tt (State (<[l := d]> (objects st)) (records st) (ticks st)).

Definition alloc (d : pydict) : IM loc := λ st,
  let l := fresh (dom (objects st)) in
  Returns l (State (<[l := d]> (objects st)) (records st) (ticks st)).

(** [logger.info(msg)] *)
Definition info (msg : string) : IM unit := λ st,
  Returns tt (State (objects st) (records st ++ [(INFO, msg)]) (ticks st)).

(** [datetime.utcnow().isoformat()] *)
Definition utcnow (E : environment) : IM string := λ st,
  Returns (utcnow_isoformat E (ticks st))
          (State (objects st) (records st) (S (ticks st))).

(** [d[k] = v] on a dict kept in insertion order: an existing key keeps its
    place and takes the new value, a new key goes last. *)
Fixpoint dict_set (k : string) (v : value) (kvs : list (string * value))
  : list (string * value) :=
  match kvs with
  | [] => [(k, v)]
  | (k', v') :: rest =>
      if decide (k' = k) then (k, v) :: rest else (k', v') :: dict_set k v rest
  end.

(** A dict display [{k1: v1, ..., **more}]: the items are set left to
    right. *)
Definition dict_display (items : list (string * value)) : list (string * value) :=
  foldl (λ d kv, dict_set kv.1 kv.2 d) [] items.

(** [d.update({...})] on a dict object. *)
Definition update_items (items : list (string * value)) (d : pydict) : pydict :=
  foldl (λ d kv, <[kv.1 := kv.2]> d) d items.

(** The attributes of an ingester.  [class_name] is
    [self.__class__.__name__]; [_metadata] refers to a dict object. *)
Record Ingester := MkIngester {
  source_path : string;
  source_type : string;
  class_name : string;
  _metadata : loc;
  read_csv_kwargs : list (string * value)
}.

Module DataIngester.

(** The initialiser the subclasses reach through [super().__init__]; [cls]
    is the name of the class being instantiated. *)
Definition __init__ (E : environment) (cls source_path source_type : string)
  : IM Ingester :=
  now ← utcnow E;
  m ← alloc (update_items [("source_path", VStr source_path);
                           ("source_type", VStr source_type);
                           ("ingester_class", VStr cls);
                           ("initialized_at", VStr now)] ∅);
  mret (MkIngester source_path source_type cls m []).

(** The dict display of lines 122-129, [now] being the timestamp read. *)
Definition audit_entry (self : Ingester) (now event_type : string)
    (details : list (string * value)) : list (string * value) :=
  dict_display ([("timestamp", VStr now);
                 ("event_type", VStr event_type);
                 ("source_type", VStr (source_type self));
                 ("source_path", VStr (source_path self));
                 ("ingester", VStr (class_name self))] ++ details).

Definition _log_audit_event (E : environment) (self : Ingester)
    (event_type : string) (details : list (string * value)) : IM unit :=
  now ← utcnow E;
  info ("AUDIT: " +:+ render E (audit_entry self now event_type details)).

(** [self._metadata.copy()], a shallow copy: a new dict object with the same
    items.  The values of the model are immutable trees, so a mutable value
    that the copy shares with the original (the [columns] list, once an
    [ingest] has stored it) is not represented as shared; what is proved of
    the copy is stated for metadata whose values are all [scalar]. *)
Definition get_metadata (self : Ingester) : IM loc :=
  d ← deref (_metadata self); alloc d.

End DataIngester.

Module CSVIngester.

Definition __init__ (E : environment) (csv_path : string)
    (read_csv_kwargs : list (string * value)) : IM Ingester :=
  self ← DataIngester.__init__ E "CSVIngester" csv_path "csv";
  mret (MkIngester (source_path self) (source_type self) (class_name self)
                   (_metadata self) read_csv_kwargs).

Definition ingest (E : environment) (self : Ingester) : IM DataFrame :=
  DataIngester._log_audit_event E self "ingestion_start"
    [("status", VStr "initiated"); ("csv_path", VStr (source_path self))];;
  try_except
    ((if negb (path_exists E (source_path self)) then
        DataIngester._log_audit_event E self "ingestion_error"
          [("status", VStr "failed");
           ("error", VStr "FileNotFoundError");
           ("message", VStr ("CSV file not found: " +:+ source_path self))];;
        raise (Exc "FileNotFoundError"
                 ("CSV file not found: " +:+ source_path self) true)
      else mret tt);;
     info ("Reading CSV from: " +:+ source_path self);;
     df ← lift (read_csv E (source_path self) (read_csv_kwargs self));
     now ← utcnow E;
     size ← lift (getsize E (source_path self));
     d ← deref (_metadata self);
     store (_metadata self)
       (update_items [("rows_ingested", VInt (Z.of_nat (length (df_rows df))));
                      ("columns", VList (df_columns df));
                      ("ingestion_timestamp", VStr now);
                      ("file_size_bytes", VInt size)] d);;
     DataIngester._log_audit_event E self "ingestion_complete"
       [("status", VStr "success");
        ("rows_ingested", VInt (Z.of_nat (length (df_rows df))));
        ("columns_count", VInt (Z.of_nat (length (df_columns df))))];;
     mret df)
    (λ e,
      DataIngester._log_audit_event E self "ingestion_error"
        [("status", VStr "failed");
         ("error", VStr (exc_name e));
         ("message", VStr (exc_message e))];;
      raise e).

End CSVIngester.

End Ingestion.

(** The audit record [_log_audit_event] writes when the clock was read
    [tick] times before. *)
Definition audit_record (E : Ingestion.environment) (self : Ingestion.Ingester)
    (tick : nat) (event_type : string) (details : list (string * value))
  : level * string :=
  (INFO, "AUDIT: " +:+ Ingestion.render E
           (Ingestion.DataIngester.audit_entry self
              (Ingestion.utcnow_isoformat E tick) event_type details)).

(** The [details] of the three kinds of audit event of [ingest]. *)
Definition start_details (self : Ingestion.Ingester) : list (string * value) :=
  [("status", VStr "initiated"); ("csv_path", VStr (Ingestion.source_path self))].

Definition error_details (name message : string) : list (string * value) :=
  [("status", VStr "failed"); ("error", VStr name); ("message", VStr message)].

Definition complete_details (df : Ingestion.DataFrame) : list (string * value) :=
  [("status", VStr "success");
   ("rows_ingested", VInt (Z.of_nat (length (Ingestion.df_rows df))));
   ("columns_count", VInt (Z.of_nat (length (Ingestion.df_columns df))))].

Definition not_found_message (self : Ingestion.Ingester) : string :=
  "CSV file not found: " +:+ Ingestion.source_path self.

(** The items [ingest] puts into the metadata after a successful read. *)
Definition ingestion_items (df : Ingestion.DataFrame) (now : string) (size : Z)
  : list (string * value) :=
  [("rows_ingested", VInt (Z.of_nat (length (Ingestion.df_rows df))));
   ("columns", VList (Ingestion.df_columns df));
   ("ingestion_timestamp", VStr now);
   ("file_size_bytes", VInt size)].

(** *** An environment to run the ingester in *)

Definition patients_frame : Ingestion.DataFrame :=
  Ingestion.Frame [VStr "patient_id"; VStr "age"]
                  [[VStr "P001"; VInt 30]; [VStr "P002"; VInt 55]].

(** One file, [patients.csv], of 42 bytes, read as [patients_frame]; any
    other path does not exist and cannot be read.  The clock answers
    [T0], [T1], ...; a dict is rendered by its keys. *)
Definition test_environment : Ingestion.environment :=
  Ingestion.Environment
    (λ path, bool_decide (path = "patients.csv"))
    (λ path _, if bool_decide (path = "patients.csv") then inr patients_frame
               else inl (Ingestion.Exc "FileNotFoundError" path true))
    (λ path, if bool_decide (path = "patients.csv") then inr 42
             else inl (Ingestion.Exc "FileNotFoundError" path true))
    (λ n, "T" +:+ pretty n)
    (λ entry, String.concat "," entry.*1).

(** An environment whose three library calls answer the same whatever the
    path: for the cases where the file is there but a later call fails. *)
Definition constant_environment (there : bool)
    (read : Ingestion.exc + Ingestion.DataFrame) (size : Ingestion.exc + Z)
  : Ingestion.environment :=
  Ingestion.Environment (λ _, there) (λ _ _, read) (λ _, size)
    (λ n, "T" +:+ pretty n) (λ entry, String.concat "," entry.*1).

Definition parser_error : Ingestion.exc :=
  Ingestion.Exc "ParserError" "Error tokenizing data" true.

Definition file_vanished : Ingestion.exc :=
  Ingestion.Exc "FileNotFoundError" "[Errno 2] No such file or directory" true.

(** Not an [Exception]: [except Exception] lets it through. *)
Definition keyboard_interrupt : Ingestion.exc :=
  Ingestion.Exc "KeyboardInterrupt" EmptyString false.

(** A value that is no mutable object: [None], a bool, a number or a
    string.  A shallow copy shares nothing that can change with a dict of
    such values. *)
Definition scalar (v : value) : Prop :=
  match v with
  | VList _ | VDict _ => False
  | _ => True
  end.

Definition csv_ingester (path : string) : Ingestion.Ingester :=
  Ingestion.MkIngester path "csv" "CSVIngester" 1%positive [].

Definition ingester_metadata (path : string) : pydict :=
  Ingestion.update_items [("source_path", VStr path);
                          ("source_type", VStr "csv");
                          ("ingester_class", VStr "CSVIngester");
                          ("initialized_at", VStr "T0")] ∅.

(** The state [CSVIngester(path)] leaves from an empty one. *)
Definition constructed_state (path : string) : Ingestion.state :=
  Ingestion.State (<[1%positive := ingester_metadata path]> ∅) [] 1.

(** Unfolds the monad operations of the ingesters. *)
Ltac unfold_IM :=
  unfold mbind, mret, Ingestion.IM_bind, Ingestion.IM_ret, Ingestion.bind,
    Ingestion.ret, Ingestion.raise, Ingestion.lift, Ingestion.try_except in *.

(** * Lemmas and theorems *)

(** ** What each method computes *)

Lemma stats_dict_lookup_total t p f wn :
  stats_dict t p f wn !! "total_validations" = Some (VInt t).
Proof. reflexivity. Qed.

Lemma stats_dict_lookup_passed t p f wn :
  stats_dict t p f wn !! "passed" = Some (VInt p).
Proof. reflexivity. Qed.

Lemma stats_dict_lookup_failed t p f wn :
  stats_dict t p f wn !! "failed" = Some (VInt f).
Proof. reflexivity. Qed.

Lemma stats_dict_lookup_warnings t p f wn :
  stats_dict t p f wn !! "warnings" = Some (VInt wn).
Proof. reflexivity. Qed.

Lemma stats_dict_set_total t t' p f wn :
  <["total_validations" := VInt t']> (stats_dict t p f wn) = stats_dict t' p f wn.
Proof. unfold stats_dict. by rewrite insert_insert_eq. Qed.

Lemma stats_dict_set_passed t p p' f wn :
  <["passed" := VInt p']> (stats_dict t p f wn) = stats_dict t p' f wn.
Proof.
  unfold stats_dict.
  rewrite (insert_insert_ne _ "passed" "total_validations") by done.
  by rewrite insert_insert_eq.
Qed.

(** [d[k] += 1] on a counter that holds an int. *)
Lemma iadd1_item_int l k d n w :
  heap w !! l = Some d →
  d !! k = Some (VInt n) →
  iadd1_item l k w = Ok tt (World (<[l := <[k := VInt (n + 1)]> d]> (heap w)) (logger w)).
Proof.
  intros Hl Hk. unfold iadd1_item, getitem, setitem, deref, store, add1.
  unfold_M. rewrite Hl, Hk. simpl. by rewrite Hl.
Qed.

(** What a call of [validate_schema] does to a validator whose counters are
    ints: the placeholder of lines 144-151. *)
Lemma validate_schema_run self data schema d t p f wn w :
  heap w !! data = Some d →
  heap w !! validation_stats self = Some (stats_dict t p f wn) →
  validate_schema self data schema w =
    Ok (true, [])
       (World (<[validation_stats self := stats_dict (t + 1) (p + 1) f wn]> (heap w))
              (logger w ++ [(INFO, "Schema validation requested for data with "
                                    +:+ pretty (size d) +:+ " fields")])).
Proof.
  intros Hd Hs. unfold validate_schema, len, deref, info. unfold_M.
  rewrite Hd.
  erewrite iadd1_item_int; [| exact Hs | apply stats_dict_lookup_total ].
  rewrite stats_dict_set_total.
  erewrite iadd1_item_int; [| simpl; apply lookup_insert_eq | apply stats_dict_lookup_passed ].
  rewrite stats_dict_set_passed. simpl. by rewrite insert_insert_eq.
Qed.

(** [detect_phi] on a record of the store: nothing is detected, the warning
    branch of lines 213-215 is not taken. *)
Lemma detect_phi_run self data d w :
  heap w !! data = Some d →
  detect_phi self data w =
    Ok (false, [])
       (World (heap w)
              (logger w ++ [(INFO, "PHI detection scan initiated for "
                                    +:+ pretty (size d) +:+ " fields")])).
Proof.
  intros Hd. unfold detect_phi, len, deref, info. unfold_M. by rewrite Hd.
Qed.

Lemma validate_data_quality_run self data w :
  validate_data_quality self data w =
    Ok (fresh (dom (heap w)))
       (World (<[fresh (dom (heap w)) := quality_report_dict]> (heap w))
              (logger w ++ [(INFO, "Data quality assessment initiated")])).
Proof. reflexivity. Qed.

Lemma get_validation_statistics_run self d w :
  heap w !! validation_stats self = Some d →
  get_validation_statistics self w =
    Ok (fresh (dom (heap w)))
       (World (<[fresh (dom (heap w)) := d]> (heap w)) (logger w)).
Proof.
  intros Hs. unfold get_validation_statistics, copy, deref, alloc. unfold_M.
  by rewrite Hs.
Qed.

Lemma reset_statistics_run self w :
  reset_statistics self w =
    Ok (Validator (config self) (audit_log_path self) (strict_mode self)
                  (fresh (dom (heap w))))
       (World (<[fresh (dom (heap w)) := zero_stats]> (heap w))
              (logger w ++ [(INFO, "Validation statistics reset")])).
Proof. reflexivity. Qed.

(** A location the store does not use yet. *)
Lemma fresh_unused (h : gmap loc pydict) : h !! fresh (dom h) = None.
Proof. apply not_elem_of_dom, is_fresh. Qed.

Lemma fresh_ne (h : gmap loc pydict) l : is_Some (h !! l) → fresh (dom h) ≠ l.
Proof. intros [d Hd] Heq. by rewrite <- Heq, fresh_unused in Hd. Qed.

(** Writing a dict keeps every allocated location allocated. *)
Lemma insert_allocated (h : gmap loc pydict) l l' d :
  is_Some (h !! l) → is_Some (<[l' := d]> h !! l).
Proof.
  intros Hl. destruct (decide (l' = l)) as [-> | Hne].
  - rewrite lookup_insert_eq. eauto.
  - by rewrite lookup_insert_ne.
Qed.

(** ** Construction *)

(** Construction from a non-empty configuration dict: it is kept by
    reference and read for the two options. *)
Lemma init_run_nonempty open_sink l d w :
  heap w !! l = Some d →
  size d ≠ 0%nat →
  open_sink (default (VStr "validation_audit.log") (d !! "audit_log_path")) = None →
  __init__ open_sink (Some l) w =
    Ok (Validator l (default (VStr "validation_audit.log") (d !! "audit_log_path"))
                    (default (VBool true) (d !! "strict_mode"))
                    (fresh (dom (heap w))))
       (World (<[fresh (dom (heap w)) := zero_stats]> (heap w))
              (logger w ++ [(INFO, "DataValidator initialized")])).
Proof.
  intros Hd Hnz Hopen.
  unfold __init__, config_or_empty, get, deref, _setup_audit_logging, basicConfig,
    info, alloc.
  unfold_M. rewrite Hd.
  destruct (decide (size d = 0%nat)) as [Hz | _]; [done |].
  rewrite Hd. cbn. rewrite Hd. cbn. by rewrite Hopen.
Qed.

(** Construction from [None] or from an empty dict: a new empty dict is the
    configuration, and both options take their defaults. *)
Lemma init_run_falsy open_sink cfg w :
  falsy_config cfg w →
  open_sink (VStr "validation_audit.log") = None →
  __init__ open_sink cfg w =
    Ok (Validator (fresh (dom (heap w)))
                  (VStr "validation_audit.log") (VBool true)
                  (fresh (dom (<[fresh (dom (heap w)) := ∅]> (heap w)))))
       (World (<[fresh (dom (<[fresh (dom (heap w)) := ∅]> (heap w))) := zero_stats]>
                 (<[fresh (dom (heap w)) := ∅]> (heap w)))
              (logger w ++ [(INFO, "DataValidator initialized")])).
Proof.
  intros Hcfg Hopen.
  assert (Hc : config_or_empty cfg w
               = Ok (fresh (dom (heap w)))
                    (World (<[fresh (dom (heap w)) := ∅]> (heap w)) (logger w))).
  { destruct cfg as [l |]; simpl in *; [| done].
    unfold deref, alloc. unfold_M. rewrite Hcfg.
    destruct (decide (size (∅ : pydict) = 0%nat)) as [_ | Hnz]; [done |].
    by rewrite map_size_empty in Hnz. }
  unfold __init__, get, deref, _setup_audit_logging, basicConfig, info, alloc.
  unfold_M.
  rewrite Hc. simpl. rewrite lookup_insert_eq. simpl.
  rewrite lookup_insert_eq. simpl. rewrite !lookup_empty. simpl.
  by rewrite Hopen.
Qed.

(** ** Invariants of call sequences *)

(** Inversion of a successful bind. *)
Lemma bind_Ok {A B} (m : M A) (k : A → M B) w b w' :
  (x ← m; k x) w = Ok b w' → ∃ a w1, m w = Ok a w1 ∧ k a w1 = Ok b w'.
Proof.
  unfold_M. destruct (m w) as [a w1 | e w1 |]; [eauto | done | done].
Qed.

Lemma init_counters open_sink cfg w self w' :
  __init__ open_sink cfg w = Ok self w' → counters self w' 0 0 0 0.
Proof.
  unfold __init__. intros H.
  apply bind_Ok in H as (c & w1 & _ & H).
  apply bind_Ok in H as (path & w2 & _ & H).
  apply bind_Ok in H as (strict & w3 & _ & H).
  apply bind_Ok in H as ([] & w4 & _ & H).
  apply bind_Ok in H as (s & w5 & Ha & H).
  unfold alloc in Ha. injection Ha as <- <-.
  injection H as <- <-. unfold counters. simpl. apply lookup_insert_eq.
Qed.

Lemma reset_counters self w self' w' :
  reset_statistics self w = Ok self' w' → counters self' w' 0 0 0 0.
Proof.
  rewrite reset_statistics_run. intros [= <- <-].
  unfold counters. simpl. apply lookup_insert_eq.
Qed.

(** A record that is not in the store: the call has no outcome. *)
Lemma validate_schema_dangling self data schema w :
  heap w !! data = None → validate_schema self data schema w = Undefined.
Proof.
  intros Hd. unfold validate_schema, len, deref. unfold_M. by rewrite Hd.
Qed.

Lemma detect_phi_dangling self data w :
  heap w !! data = None → detect_phi self data w = Undefined.
Proof.
  intros Hd. unfold detect_phi, len, deref. unfold_M. by rewrite Hd.
Qed.

(** Every method keeps the counters well-formed. *)
Lemma perform_counters_ok c self w self' w' :
  counters_ok self w → perform c self w = Ok self' w' → counters_ok self' w'.
Proof.
  intros (t & p & f & wn & Hs) H.
  destruct c as [data schema | data | data | |]; unfold perform in H.
  - apply bind_Ok in H as (r & w1 & Hv & H). injection H as <- <-.
    destruct (heap w !! data) as [d |] eqn:Hd.
    + rewrite (validate_schema_run _ _ _ _ _ _ _ _ _ Hd Hs) in Hv.
      injection Hv as <- <-.
      exists (t + 1), (p + 1), f, wn. unfold counters. simpl. apply lookup_insert_eq.
    + by rewrite validate_schema_dangling in Hv.
  - apply bind_Ok in H as (r & w1 & Hv & H). injection H as <- <-.
    destruct (heap w !! data) as [d |] eqn:Hd.
    + rewrite (detect_phi_run _ _ _ _ Hd) in Hv. injection Hv as <- <-.
      exists t, p, f, wn. exact Hs.
    + by rewrite detect_phi_dangling in Hv.
  - apply bind_Ok in H as (r & w1 & Hv & H). injection H as <- <-.
    rewrite validate_data_quality_run in Hv. injection Hv as <- <-.
    exists t, p, f, wn. unfold counters. simpl.
    rewrite lookup_insert_ne; [done |]. apply fresh_ne. unfold counters in Hs. eauto.
  - apply bind_Ok in H as (r & w1 & Hv & H). injection H as <- <-.
    rewrite (get_validation_statistics_run self _ w Hs) in Hv.
    injection Hv as <- <-.
    exists t, p, f, wn. unfold counters. simpl.
    rewrite lookup_insert_ne; [done |]. apply fresh_ne. unfold counters in Hs. eauto.
  - apply reset_counters in H. by exists 0, 0, 0, 0.
Qed.

Lemma reachable_counters_ok self w : reachable self w → counters_ok self w.
Proof.
  induction 1 as [cfg w0 self w Hi | c self w self' w' _ IH Hc
                 | d self w l w' _ IH Ha | l d self w _ IH Hl Hne].
  - exists 0, 0, 0, 0. by eapply init_counters.
  - by eapply perform_counters_ok.
  - destruct IH as (t & p & f & wn & Hs). exists t, p, f, wn.
    unfold alloc in Ha. injection Ha as <- <-. unfold counters in *. simpl.
    rewrite lookup_insert_ne; [done |]. apply fresh_ne. eauto.
  - destruct IH as (t & p & f & wn & Hs). exists t, p, f, wn.
    unfold counters in *. simpl. by rewrite lookup_insert_ne.
Qed.

Lemma perform_all_counters_ok cs : ∀ self w self' w',
  counters_ok self w → perform_all cs self w = Ok self' w' → counters_ok self' w'.
Proof.
  induction cs as [| c cs IH]; intros self w self' w' Hok H; simpl in H.
  - by injection H as <- <-.
  - apply bind_Ok in H as (self1 & w1 & Hc & H).
    eapply IH; [| exact H]. by eapply perform_counters_ok.
Qed.

(** No method frees a dict: what is in the store stays in the store. *)
Lemma perform_allocated c self w self' w' l :
  counters_ok self w → perform c self w = Ok self' w' →
  is_Some (heap w !! l) → is_Some (heap w' !! l).
Proof.
  intros (t & p & f & wn & Hs) H Hl.
  destruct c as [data schema | data | data | |]; unfold perform in H.
  - apply bind_Ok in H as (r & w1 & Hv & H). injection H as <- <-.
    destruct (heap w !! data) as [d |] eqn:Hd.
    + rewrite (validate_schema_run _ _ _ _ _ _ _ _ _ Hd Hs) in Hv.
      injection Hv as <- <-. by apply insert_allocated.
    + by rewrite validate_schema_dangling in Hv.
  - apply bind_Ok in H as (r & w1 & Hv & H). injection H as <- <-.
    destruct (heap w !! data) as [d |] eqn:Hd.
    + rewrite (detect_phi_run _ _ _ _ Hd) in Hv. by injection Hv as <- <-.
    + by rewrite detect_phi_dangling in Hv.
  - apply bind_Ok in H as (r & w1 & Hv & H). injection H as <- <-.
    rewrite validate_data_quality_run in Hv. injection Hv as <- <-.
    by apply insert_allocated.
  - apply bind_Ok in H as (r & w1 & Hv & H). injection H as <- <-.
    rewrite (get_validation_statistics_run self _ w Hs) in Hv.
    injection Hv as <- <-. by apply insert_allocated.
  - rewrite reset_statistics_run in H. injection H as <- <-.
    by apply insert_allocated.
Qed.

Lemma perform_all_allocated cs : ∀ self w self' w' l,
  counters_ok self w → perform_all cs self w = Ok self' w' →
  is_Some (heap w !! l) → is_Some (heap w' !! l).
Proof.
  induction cs as [| c cs IH]; intros self w self' w' l Hok H Hl; simpl in H.
  - by injection H as <- <-.
  - apply bind_Ok in H as (self1 & w1 & Hc & H).
    eapply IH; [| exact H |].
    + by eapply perform_counters_ok.
    + by eapply perform_allocated.
Qed.

(** One call that is not a reset: it returns, and the counters move by one
    exactly when it is a [validate_schema] call. *)
Lemma perform_counts c self w t p f wn :
  counters self w t p f wn →
  record_call w c →
  ∃ w', perform c self w = Ok self w'
        ∧ counters self w' (t + Z.of_nat (validations [c]))
                           (p + Z.of_nat (validations [c])) f wn.
Proof.
  intros Hs Hc. unfold counters in Hs.
  destruct c as [data schema | data | data | |]; simpl in Hc; unfold perform.
  - destruct Hc as [d Hd]. eexists. unfold_M.
    rewrite (validate_schema_run _ _ _ _ _ _ _ _ _ Hd Hs).
    split; [done |]. unfold counters. cbn. apply lookup_insert_eq.
  - destruct Hc as [d Hd]. eexists. unfold_M. rewrite (detect_phi_run _ _ _ _ Hd).
    split; [done |]. unfold counters. cbn. by rewrite !Z.add_0_r.
  - eexists. unfold_M. rewrite validate_data_quality_run.
    split; [done |]. unfold counters. cbn. rewrite !Z.add_0_r.
    rewrite lookup_insert_ne; [done |]. apply fresh_ne. eauto.
  - eexists. unfold_M. rewrite (get_validation_statistics_run _ _ _ Hs).
    split; [done |]. unfold counters. cbn. rewrite !Z.add_0_r.
    rewrite lookup_insert_ne; [done |]. apply fresh_ne. eauto.
  - done.
Qed.

(** A sequence of calls without reset, from counters [t p f wn]: every call
    returns, and with N [validate_schema] calls among them the counters end
    at [t + N], [p + N], [f], [wn]. *)
Lemma perform_all_counts self cs : ∀ w t p f wn,
  counters self w t p f wn →
  Forall (record_call w) cs →
  ∃ w', perform_all cs self w = Ok self w'
        ∧ counters self w' (t + Z.of_nat (validations cs))
                           (p + Z.of_nat (validations cs)) f wn.
Proof.
  induction cs as [| c cs IH]; intros w t p f wn Hs Hcs.
  - exists w. split; [done |]. simpl. by rewrite !Z.add_0_r.
  - apply Forall_cons in Hcs as [Hc Hcs].
    destruct (perform_counts c self w t p f wn Hs Hc) as (w1 & Hrun1 & Hs1).
    destruct (IH w1 _ _ f wn Hs1) as (w' & Hrun & Hs').
    { eapply Forall_impl; [exact Hcs |]. intros c' Hc'.
      assert (Hmono : ∀ l, is_Some (heap w !! l) → is_Some (heap w1 !! l)).
      { intros l. apply (perform_allocated c self w self w1); [| done].
        by exists t, p, f, wn. }
      destruct c'; simpl in *; auto. }
    exists w'. split.
    + simpl. unfold_M. by rewrite Hrun1.
    + replace (t + Z.of_nat (validations (c :: cs)))
        with (t + Z.of_nat (validations [c]) + Z.of_nat (validations cs))
        by (destruct c; simpl validations; lia).
      replace (p + Z.of_nat (validations (c :: cs)))
        with (p + Z.of_nat (validations [c]) + Z.of_nat (validations cs))
        by (destruct c; simpl validations; lia).
      exact Hs'.
Qed.


(** ** The fixtures evaluated *)

Lemma patient_schema_size : size patient_schema = 3%nat.
Proof. vm_compute. reflexivity. Qed.

Lemma store_with_record r : heap (store_with r) !! 1%positive = Some r.
Proof. apply lookup_insert_eq. Qed.

Lemma store_with_schema r : heap (store_with r) !! 2%positive = Some patient_schema.
Proof. unfold store_with. simpl. by rewrite lookup_insert_ne, lookup_insert_eq. Qed.

Lemma store_with_fresh r : fresh (dom (heap (store_with r))) = 3%positive.
Proof.
  unfold store_with. simpl. rewrite !dom_insert_L, dom_empty_L.
  vm_compute. reflexivity.
Qed.

Lemma after_setup_record r : heap (after_setup r) !! 1%positive = Some r.
Proof.
  unfold after_setup. cbn [heap]. rewrite lookup_insert_ne by done.
  apply store_with_record.
Qed.

Lemma after_setup_schema r : heap (after_setup r) !! 2%positive = Some patient_schema.
Proof.
  unfold after_setup. cbn [heap]. rewrite lookup_insert_ne by done.
  apply store_with_schema.
Qed.

Lemma after_setup_counters r : counters test_validator (after_setup r) 0 0 0 0.
Proof. unfold counters, after_setup. cbn. apply lookup_insert_eq. Qed.

Lemma patient_schema_options :
  patient_schema !! "audit_log_path" = None ∧ patient_schema !! "strict_mode" = None.
Proof. split; vm_compute; reflexivity. Qed.

(** [setUpClass] with any record in the store: the schema is the (non-empty)
    configuration, the statistics dict is the next new object. *)
Lemma setUpClass_run r :
  __init__ writable (Some 2%positive) (store_with r)
  = Ok test_validator (after_setup r).
Proof.
  assert (H := init_run_nonempty writable _ _ _ (store_with_schema r)).
  rewrite patient_schema_size in H. specialize (H ltac:(done) eq_refl).
  destruct patient_schema_options as [Hpath Hstrict].
  rewrite Hpath, Hstrict, store_with_fresh in H. exact H.
Qed.

(** ** Determinism, statistics, frame and faults *)

(** C4 (determinism).  On any validator, for a record [data] of the store and
    any schema, [validate_schema] returns; and whatever calls are made on the
    validator in between, a second call on the same record and schema
    returns the same tuple: the same [validation_passed] and the same
    [error_messages], order included.  The tuple has no third component: the
    method returns no warnings sequence that could differ. *)
Theorem validate_schema_deterministic self w data schema cs :
  reachable self w →
  is_Some (heap w !! data) →
  ∃ r w1,
    validate_schema self data schema w = Ok r w1 ∧
    ∀ self2 w2,
      perform_all cs self w1 = Ok self2 w2 →
      ∃ w3, validate_schema self2 data schema w2 = Ok r w3.
Proof.
  intros Hr [d Hd].
  destruct (reachable_counters_ok _ _ Hr) as (t & p & f & wn & Hs).
  eexists _, _. split; [by apply (validate_schema_run _ _ _ _ _ _ _ _ _ Hd Hs) |].
  intros self2 w2 Hcs.
  assert (Hok1 : counters_ok self
            (World (<[validation_stats self := stats_dict (t + 1) (p + 1) f wn]> (heap w))
                   (logger w ++ [(INFO, "Schema validation requested for data with "
                                         +:+ pretty (size d) +:+ " fields")]))).
  { exists (t + 1), (p + 1), f, wn. unfold counters. simpl. apply lookup_insert_eq. }
  destruct (perform_all_counters_ok _ _ _ _ _ Hok1 Hcs) as (t2 & p2 & f2 & wn2 & Hs2).
  destruct (perform_all_allocated cs _ _ _ _ data Hok1 Hcs) as [d2 Hd2].
  { simpl. apply insert_allocated. eauto. }
  eexists. by apply (validate_schema_run _ _ _ _ _ _ _ _ _ Hd2 Hs2).
Qed.

Lemma validate_schema_deterministic_witness :
  reachable test_validator (after_setup valid_record) ∧
  is_Some (heap (after_setup valid_record) !! 1%positive) ∧
  ∃ r w1,
    validate_schema test_validator 1%positive 2%positive (after_setup valid_record) = Ok r w1 ∧
    ∀ self2 w2,
      perform_all [DetectPhi 1%positive; ResetStatistics; GetValidationStatistics]
                  test_validator w1 = Ok self2 w2 →
      ∃ w3, validate_schema self2 1%positive 2%positive w2 = Ok r w3.
Proof.
  assert (Hr : reachable test_validator (after_setup valid_record)).
  { apply (reach_init writable (Some 2%positive) (store_with valid_record)).
    apply setUpClass_run. }
  assert (Hd : is_Some (heap (after_setup valid_record) !! 1%positive)).
  { rewrite after_setup_record. eauto. }
  split; [exact Hr |]. split; [exact Hd |].
  exact (validate_schema_deterministic test_validator (after_setup valid_record)
           1%positive 2%positive
           [DetectPhi 1%positive; ResetStatistics; GetValidationStatistics] Hr Hd).
Defined.

(** C5 (statistics conservation).  Starting from zeroed counters (as
    [__init__] and [reset_statistics] leave them), any sequence of calls
    without reset, on records of the store, returns, and with N
    [validate_schema] calls among them [total_validations = N] and
    [passed + failed = N] afterwards.  From any counters, a single
    [validate_schema] call adds one to [total_validations] and one to exactly
    one of [passed] and [failed]. *)
Theorem statistics_conservation self :
  (∀ w cs,
     counters self w 0 0 0 0 →
     Forall (record_call w) cs →
     ∃ w' t p f wn,
       perform_all cs self w = Ok self w' ∧
       counters self w' t p f wn ∧
       t = Z.of_nat (validations cs) ∧ p + f = Z.of_nat (validations cs))
  ∧
  (∀ w data schema t p f wn,
     counters self w t p f wn →
     is_Some (heap w !! data) →
     ∃ r w' t' p' f' wn',
       validate_schema self data schema w = Ok r w' ∧
       counters self w' t' p' f' wn' ∧
       t' = t + 1 ∧
       ((p' = p + 1 ∧ f' = f) ∨ (p' = p ∧ f' = f + 1))).
Proof.
  split.
  - intros w cs Hs Hcs.
    destruct (perform_all_counts self cs w 0 0 0 0 Hs Hcs) as (w' & Hrun & Hc).
    exists w', (0 + Z.of_nat (validations cs)), (0 + Z.of_nat (validations cs)), 0, 0.
    split; [done |]. split; [done |]. lia.
  - intros w data schema t p f wn Hs [d Hd].
    eexists (true, []), _, (t + 1), (p + 1), f, wn.
    split; [by apply (validate_schema_run _ _ _ _ _ _ _ _ _ Hd Hs) |].
    split; [unfold counters; simpl; apply lookup_insert_eq |].
    split; [done |]. by left.
Qed.

Lemma statistics_conservation_witness :
  counters test_validator (after_setup valid_record) 0 0 0 0 ∧
  Forall (record_call (after_setup valid_record))
         [ValidateSchema 1%positive 2%positive; DetectPhi 1%positive;
          ValidateSchema 1%positive 2%positive; GetValidationStatistics;
          ValidateSchema 2%positive 2%positive] ∧
  is_Some (heap (after_setup valid_record) !! 1%positive) ∧
  (∃ w' t p f wn,
    perform_all
      [ValidateSchema 1%positive 2%positive; DetectPhi 1%positive;
       ValidateSchema 1%positive 2%positive; GetValidationStatistics;
       ValidateSchema 2%positive 2%positive]
      test_validator (after_setup valid_record) = Ok test_validator w' ∧
    counters test_validator w' t p f wn ∧
    t = 3 ∧ p + f = 3)
  ∧
  (∃ r w' t' p' f' wn',
    validate_schema test_validator 1%positive 2%positive (after_setup valid_record) = Ok r w' ∧
    counters test_validator w' t' p' f' wn' ∧
    t' = 0 + 1 ∧
    ((p' = 0 + 1 ∧ f' = 0) ∨ (p' = 0 ∧ f' = 0 + 1))).
Proof.
  assert (Hs : counters test_validator (after_setup valid_record) 0 0 0 0).
  { apply after_setup_counters. }
  assert (Hd : is_Some (heap (after_setup valid_record) !! 1%positive)).
  { eexists. apply after_setup_record. }
  assert (Hcs : Forall (record_call (after_setup valid_record))
                  [ValidateSchema 1%positive 2%positive; DetectPhi 1%positive;
                   ValidateSchema 1%positive 2%positive; GetValidationStatistics;
                   ValidateSchema 2%positive 2%positive]).
  { repeat constructor.
    - exact Hd.
    - exact Hd.
    - exact Hd.
    - eexists. apply after_setup_schema. }
  split; [exact Hs |]. split; [exact Hcs |]. split; [exact Hd |]. split.
  - exact (proj1 (statistics_conservation test_validator)
             (after_setup valid_record) _ Hs Hcs).
  - exact (proj2 (statistics_conservation test_validator)
             (after_setup valid_record) 1%positive 2%positive 0 0 0 0 Hs Hd).
Defined.

(** C6 (PHI non-mutation).  For every record of the store, [detect_phi]
    returns and leaves the record as it was; no dict of the store is altered
    at all (nothing is redacted), the call only hands back its tuple and
    writes one audit line. *)
Theorem detect_phi_preserves_record self w data d :
  heap w !! data = Some d →
  ∃ r w',
    detect_phi self data w = Ok r w' ∧
    heap w' !! data = Some d ∧
    heap w' = heap w.
Proof.
  intros Hd. eexists _, _.
  split; [by apply detect_phi_run |]. by split.
Qed.

Lemma detect_phi_preserves_record_witness :
  heap (after_setup valid_record) !! 1%positive = Some valid_record ∧
  ∃ r w',
    detect_phi test_validator 1%positive (after_setup valid_record) = Ok r w' ∧
    heap w' !! 1%positive = Some valid_record ∧
    heap w' = heap (after_setup valid_record).
Proof.
  split; [apply after_setup_record |].
  exact (detect_phi_preserves_record test_validator (after_setup valid_record)
           1%positive valid_record (after_setup_record valid_record)).
Defined.

(** C7 (no raised fault).  On every validator, for every record of the
    store, [validate_schema] returns its [(validation_passed,
    error_messages)] tuple and [detect_phi] returns its [(phi_detected,
    detected_fields)] tuple: neither raises, in particular not the
    [NotImplementedError] the test-suite expects of [detect_phi]. *)
Theorem validation_and_detection_never_raise self w data schema :
  reachable self w →
  is_Some (heap w !! data) →
  (∃ passed errors w', validate_schema self data schema w = Ok (passed, errors) w') ∧
  (∃ phi_detected detected_fields w',
     detect_phi self data w = Ok (phi_detected, detected_fields) w') ∧
  (∀ e w', validate_schema self data schema w ≠ Raise e w') ∧
  (∀ e w', detect_phi self data w ≠ Raise e w').
Proof.
  intros Hr [d Hd].
  destruct (reachable_counters_ok _ _ Hr) as (t & p & f & wn & Hs).
  assert (Hv := validate_schema_run self data schema d t p f wn w Hd Hs).
  assert (Hp := detect_phi_run self data d w Hd).
  split; [by eexists _, _, _ |]. split; [by eexists _, _, _ |].
  split; intros e w' H; congruence.
Qed.

Lemma validation_and_detection_never_raise_witness :
  reachable test_validator (after_setup valid_record) ∧
  is_Some (heap (after_setup valid_record) !! 1%positive) ∧
  (∃ passed errors w',
     validate_schema test_validator 1%positive 2%positive (after_setup valid_record)
     = Ok (passed, errors) w') ∧
  (∃ phi_detected detected_fields w',
     detect_phi test_validator 1%positive (after_setup valid_record)
     = Ok (phi_detected, detected_fields) w') ∧
  (∀ e w', validate_schema test_validator 1%positive 2%positive (after_setup valid_record)
           ≠ Raise e w') ∧
  (∀ e w', detect_phi test_validator 1%positive (after_setup valid_record) ≠ Raise e w').
Proof.
  assert (Hr : reachable test_validator (after_setup valid_record)).
  { apply (reach_init writable (Some 2%positive) (store_with valid_record)).
    apply setUpClass_run. }
  assert (Hd : is_Some (heap (after_setup valid_record) !! 1%positive)).
  { eexists. apply after_setup_record. }
  split; [exact Hr |]. split; [exact Hd |].
  exact (validation_and_detection_never_raise test_validator (after_setup valid_record)
           1%positive 2%positive Hr Hd).
Defined.

(** ** The statistics handed out as a copy *)

Lemma agree_off_mutate l d' w :
  is_Some (heap w !! l) → agree_off l w (caller_mutates l d' w).
Proof.
  intros Hl. split.
  - unfold caller_mutates. simpl. rewrite dom_insert_L.
    apply elem_of_dom in Hl. symmetry. apply subseteq_union_1_L.
    by apply singleton_subseteq_l.
  - intros l' Hne. unfold caller_mutates. simpl. by rewrite lookup_insert_ne.
Qed.

Lemma agree_off_insert l k d w w' lg lg' :
  agree_off l w w' →
  agree_off l (World (<[k := d]> (heap w)) lg) (World (<[k := d]> (heap w')) lg').
Proof.
  intros [Hdom Hag]. split; simpl.
  - by rewrite !dom_insert_L, Hdom.
  - intros l' Hne. destruct (decide (k = l')) as [-> | Hk].
    + by rewrite !lookup_insert_eq.
    + rewrite !lookup_insert_ne by done. by apply Hag.
Qed.

Lemma agree_off_logger l w w' lg lg' :
  agree_off l w w' → agree_off l (World (heap w) lg) (World (heap w') lg').
Proof. by intros [Hdom Hag]. Qed.

Lemma agree_off_allocated l w w' k :
  agree_off l w w' → is_Some (heap w !! k) → is_Some (heap w' !! k).
Proof. intros [Hdom _] Hk. apply elem_of_dom. rewrite <- Hdom. by apply elem_of_dom. Qed.

(** A call made in two worlds that agree off [l], on a validator whose
    statistics dict is not [l]: the same validator comes back and the worlds
    still agree off [l]. *)
Lemma perform_agree l c self w w' self1 w1 :
  agree_off l w w' →
  counters_ok self w →
  validation_stats self ≠ l →
  is_Some (heap w !! l) →
  perform c self w = Ok self1 w1 →
  ∃ w1', perform c self w' = Ok self1 w1'
         ∧ agree_off l w1 w1' ∧ validation_stats self1 ≠ l.
Proof.
  intros Hag (t & p & f & wn & Hs) Hne Hl H.
  assert (Hs' : heap w' !! validation_stats self = Some (stats_dict t p f wn)).
  { destruct Hag as [_ Hag]. rewrite <- Hag; done. }
  destruct c as [data schema | data | data | |]; unfold perform in *.
  - apply bind_Ok in H as (r & w2 & Hv & H). injection H as <- <-.
    destruct (heap w !! data) as [d |] eqn:Hd;
      [| by rewrite validate_schema_dangling in Hv].
    rewrite (validate_schema_run _ _ _ _ _ _ _ _ _ Hd Hs) in Hv.
    injection Hv as <- <-.
    destruct (agree_off_allocated l w w' data Hag) as [d' Hd']; [by eauto |].
    eexists. unfold_M.
    rewrite (validate_schema_run _ _ _ _ _ _ _ _ _ Hd' Hs').
    split; [done |]. split; [| done]. by apply agree_off_insert.
  - apply bind_Ok in H as (r & w2 & Hv & H). injection H as <- <-.
    destruct (heap w !! data) as [d |] eqn:Hd;
      [| by rewrite detect_phi_dangling in Hv].
    rewrite (detect_phi_run _ _ _ _ Hd) in Hv. injection Hv as <- <-.
    destruct (agree_off_allocated l w w' data Hag) as [d' Hd']; [by eauto |].
    eexists. unfold_M. rewrite (detect_phi_run _ _ _ _ Hd').
    split; [done |]. split; [| done]. by apply agree_off_logger.
  - apply bind_Ok in H as (r & w2 & Hv & H). injection H as <- <-.
    rewrite validate_data_quality_run in Hv. injection Hv as <- <-.
    eexists. unfold_M. rewrite validate_data_quality_run.
    split; [done |]. split; [| done].
    destruct Hag as [Hdom Hag]. rewrite <- Hdom. by apply agree_off_insert.
  - apply bind_Ok in H as (r & w2 & Hv & H). injection H as <- <-.
    rewrite (get_validation_statistics_run self _ w Hs) in Hv.
    injection Hv as <- <-.
    eexists. unfold_M. rewrite (get_validation_statistics_run self _ w' Hs').
    split; [done |]. split; [| done].
    destruct Hag as [Hdom Hag]. rewrite <- Hdom. by apply agree_off_insert.
  - rewrite reset_statistics_run in H. injection H as <- <-.
    eexists. rewrite reset_statistics_run.
    destruct Hag as [Hdom Hag]. rewrite <- Hdom.
    split; [done |]. split; [by apply agree_off_insert |].
    simpl. by apply fresh_ne.
Qed.

Lemma perform_all_agree l cs : ∀ self w w' self1 w1,
  agree_off l w w' →
  counters_ok self w →
  validation_stats self ≠ l →
  is_Some (heap w !! l) →
  perform_all cs self w = Ok self1 w1 →
  ∃ w1', perform_all cs self w' = Ok self1 w1'
         ∧ agree_off l w1 w1' ∧ validation_stats self1 ≠ l.
Proof.
  induction cs as [| c cs IH]; intros self w w' self1 w1 Hag Hok Hne Hl H; simpl in H.
  - injection H as H1 H2. subst. by exists w'.
  - apply bind_Ok in H as (self2 & w2 & Hc & H).
    destruct (perform_agree l c self w w' self2 w2 Hag Hok Hne Hl Hc)
      as (w2' & Hc' & Hag2 & Hne2).
    destruct (IH self2 w2 w2' self1 w1 Hag2) as (w1' & Hcs' & Hag1 & Hne1);
      [by eapply perform_counters_ok | done | by eapply perform_allocated | done |].
    exists w1'. split; [| done]. simpl. unfold_M. by rewrite Hc'.
Qed.

(** C10 (statistics are handed out as a copy).  On every validator,
    [get_validation_statistics] returns a new dict object whose items are
    those of the validator's statistics dict.  However the caller changes
    the returned dict, the validator's own dict keeps its items, and after
    any further calls on the validator its statistics dict, and the items a
    later [get_validation_statistics] returns, are what they would have been
    without the change. *)
Theorem get_validation_statistics_returns_copy self w :
  reachable self w →
  ∃ d l w1,
    heap w !! validation_stats self = Some d ∧
    get_validation_statistics self w = Ok l w1 ∧
    l ≠ validation_stats self ∧
    heap w1 !! l = Some d ∧
    ∀ d',
      heap (caller_mutates l d' w1) !! validation_stats self = Some d ∧
      ∀ cs self2 w2 l2 w3,
        perform_all cs self w1 = Ok self2 w2 →
        get_validation_statistics self2 w2 = Ok l2 w3 →
        ∃ w2' w3',
          perform_all cs self (caller_mutates l d' w1) = Ok self2 w2' ∧
          heap w2' !! validation_stats self2 = heap w2 !! validation_stats self2 ∧
          get_validation_statistics self2 w2' = Ok l2 w3' ∧
          heap w3' !! l2 = heap w3 !! l2 ∧
          heap w3 !! l2 = heap w2 !! validation_stats self2.
Proof.
  intros Hr.
  destruct (reachable_counters_ok _ _ Hr) as (t & p & f & wn & Hs).
  unfold counters in Hs.
  assert (Hne : fresh (dom (heap w)) ≠ validation_stats self) by (apply fresh_ne; eauto).
  eexists _, _, _. split; [exact Hs |].
  split; [by apply get_validation_statistics_run |].
  split; [exact Hne |].
  split; [simpl; apply lookup_insert_eq |].
  intros d'.
  set (l := fresh (dom (heap w))) in *.
  set (w1 := World (<[l := stats_dict t p f wn]> (heap w)) (logger w)).
  assert (Hs1 : heap w1 !! validation_stats self = Some (stats_dict t p f wn)).
  { unfold w1. simpl. by rewrite lookup_insert_ne. }
  assert (Hl1 : is_Some (heap w1 !! l)).
  { unfold w1. simpl. rewrite lookup_insert_eq. eauto. }
  split.
  { unfold caller_mutates. simpl. by rewrite lookup_insert_ne. }
  intros cs self2 w2 l2 w3 Hcs Hget.
  assert (Hok1 : counters_ok self w1) by (by exists t, p, f, wn).
  destruct (perform_all_agree l cs self w1 (caller_mutates l d' w1) self2 w2)
    as (w2' & Hcs' & [Hdom Hag] & Hne2);
    [by apply agree_off_mutate | done | done | done | done |].
  destruct (perform_all_counters_ok _ _ _ _ _ Hok1 Hcs) as (t2 & p2 & f2 & wn2 & Hs2).
  unfold counters in Hs2.
  assert (Hs2' : heap w2' !! validation_stats self2 = Some (stats_dict t2 p2 f2 wn2)).
  { rewrite <- Hag; done. }
  rewrite (get_validation_statistics_run _ _ _ Hs2) in Hget.
  injection Hget as <- <-.
  eexists w2', _. split; [exact Hcs' |].
  split; [by rewrite Hs2, Hs2' |].
  split; [rewrite (get_validation_statistics_run _ _ _ Hs2'), <- Hdom; reflexivity |].
  simpl. by rewrite !lookup_insert_eq.
Qed.

Lemma get_validation_statistics_returns_copy_witness :
  reachable test_validator (after_setup valid_record) ∧
  ∃ d l w1,
    heap (after_setup valid_record) !! validation_stats test_validator = Some d ∧
    get_validation_statistics test_validator (after_setup valid_record) = Ok l w1 ∧
    l ≠ validation_stats test_validator ∧
    heap w1 !! l = Some d ∧
    ∀ d',
      heap (caller_mutates l d' w1) !! validation_stats test_validator = Some d ∧
      ∀ cs self2 w2 l2 w3,
        perform_all cs test_validator w1 = Ok self2 w2 →
        get_validation_statistics self2 w2 = Ok l2 w3 →
        ∃ w2' w3',
          perform_all cs test_validator (caller_mutates l d' w1) = Ok self2 w2' ∧
          heap w2' !! validation_stats self2 = heap w2 !! validation_stats self2 ∧
          get_validation_statistics self2 w2' = Ok l2 w3' ∧
          heap w3' !! l2 = heap w3 !! l2 ∧
          heap w3 !! l2 = heap w2 !! validation_stats self2.
Proof.
  assert (Hr : reachable test_validator (after_setup valid_record)).
  { apply (reach_init writable (Some 2%positive) (store_with valid_record)).
    apply setUpClass_run. }
  split; [exact Hr |].
  exact (get_validation_statistics_returns_copy test_validator
           (after_setup valid_record) Hr).
Defined.

(** ** The placeholders on the records of the test-suite *)

Lemma construct_then_run {A} (k : DataValidator → M A) r :
  construct_then k (store_with r) = k test_validator (after_setup r).
Proof. unfold construct_then. unfold_M. by rewrite setUpClass_run. Qed.

(** C1 (required-field completeness), evaluated on the record of
    [test_schema_validation_missing_required_field]: the schema declares
    [diagnosis_code] required, the record lacks it, and [validate_schema]
    returns [(True, [])]: the record passes and no message names the
    field. *)
Theorem validate_schema_accepts_missing_required_field :
  is_required patient_schema "diagnosis_code" = true ∧
  record_missing_diagnosis_code !! "diagnosis_code" = None ∧
  ∃ w',
    construct_then (λ self, validate_schema self 1%positive 2%positive)
      (store_with record_missing_diagnosis_code) = Ok (true, []) w'.
Proof.
  split; [vm_compute; reflexivity |]. split; [vm_compute; reflexivity |].
  rewrite construct_then_run. eexists.
  apply (validate_schema_run _ _ _ record_missing_diagnosis_code 0 0 0 0).
  - apply after_setup_record.
  - apply after_setup_counters.
Qed.

(** C2 (type strictness), evaluated on the record of
    [test_schema_validation_incorrect_type]: the schema types [age] as
    integer, the record holds the string ["forty-five"] there, and
    [validate_schema] returns [(True, [])], no type error naming [age].  The
    record still holds the string afterwards: nothing is converted. *)
Theorem validate_schema_accepts_string_for_integer :
  declared_type patient_schema "age" = Some "integer" ∧
  record_age_as_string !! "age" = Some (VStr "forty-five") ∧
  ∃ w',
    construct_then (λ self, validate_schema self 1%positive 2%positive)
      (store_with record_age_as_string) = Ok (true, []) w' ∧
    heap w' !! 1%positive = Some record_age_as_string.
Proof.
  split; [vm_compute; reflexivity |]. split; [vm_compute; reflexivity |].
  rewrite construct_then_run. eexists. split.
  - apply (validate_schema_run _ _ _ record_age_as_string 0 0 0 0).
    + apply after_setup_record.
    + apply after_setup_counters.
  - cbn [heap]. rewrite lookup_insert_ne by done. apply after_setup_record.
Qed.

(** C3 (PHI deny-list), evaluated on the record of
    [test_phi_detection_ssn_placeholder]: the record has a field [ssn]
    holding ["123-45-6789"], and [detect_phi] returns [(False, [])]: no
    field is reported, [ssn] included. *)
Theorem detect_phi_misses_ssn :
  record_with_ssn !! "ssn" = Some (VStr "123-45-6789") ∧
  ∃ w',
    construct_then (λ self, detect_phi self 1%positive) (store_with record_with_ssn)
    = Ok (false, []) w'.
Proof.
  split; [vm_compute; reflexivity |].
  rewrite construct_then_run. eexists.
  apply detect_phi_run, after_setup_record.
Qed.

(** C9 (completeness score), evaluated on the record of
    [test_valid_record_ingestion]: the schema declares three required
    fields, the record holds all three, and the report
    [validate_data_quality] returns has [completeness_score] 0.0, not
    1.0. *)
Theorem validate_data_quality_completeness_is_zero :
  length (spec_required_declared patient_schema) = 3%nat ∧
  length (spec_required_present patient_schema valid_record) = 3%nat ∧
  ∃ report w',
    construct_then (λ self, validate_data_quality self 1%positive) (store_with valid_record)
    = Ok report w' ∧
    heap w' !! report ≫= (.!! "completeness_score") = Some (VFloat 0%float) ∧
    VFloat 0%float ≠ VFloat 1%float.
Proof.
  split; [vm_compute; reflexivity |]. split; [vm_compute; reflexivity |].
  rewrite construct_then_run. rewrite validate_data_quality_run.
  eexists _, _. split; [reflexivity |]. split.
  - cbn [heap]. rewrite lookup_insert_eq. reflexivity.
  - intros H.
    apply (f_equal (λ v, match v with VFloat x => PrimFloat.eqb x 0%float | _ => false end)) in H.
    vm_compute in H. discriminate.
Qed.

(** ** The exceptions of each method *)

Lemma raises_only_ret {A} P (a : A) : raises_only P (mret a).
Proof. intros w e w' H. discriminate. Qed.

Lemma raises_only_bind {A B} P (m : M A) (k : A → M B) :
  raises_only P m → (∀ a, raises_only P (k a)) → raises_only P (x ← m; k x).
Proof.
  intros Hm Hk w e w' H. unfold_M.
  destruct (m w) as [a w1 | e1 w1 |] eqn:Hmw.
  - by eapply Hk.
  - injection H as -> ->. by eapply Hm.
  - discriminate.
Qed.

Lemma raises_only_deref P l : raises_only P (deref l).
Proof. intros w e w' H. unfold deref in H. by destruct (heap w !! l). Qed.

Lemma raises_only_store P l d : raises_only P (store l d).
Proof. intros w e w' H. discriminate. Qed.

Lemma raises_only_alloc P d : raises_only P (alloc d).
Proof. intros w e w' H. discriminate. Qed.

Lemma raises_only_info P msg : raises_only P (info msg).
Proof. intros w e w' H. discriminate. Qed.

Lemma raises_only_warning P msg : raises_only P (warning msg).
Proof. intros w e w' H. discriminate. Qed.

Lemma raises_only_raise {A} (P : exn → Prop) e : P e → raises_only P (raise (A := A) e).
Proof. intros He w e' w' H. unfold raise in H. by injection H as <- _. Qed.

#[global] Hint Resolve raises_only_ret raises_only_deref raises_only_store
  raises_only_alloc raises_only_info raises_only_warning : raises.

Lemma raises_only_len P l : raises_only P (len l).
Proof. unfold len. apply raises_only_bind; eauto with raises. Qed.

Lemma raises_only_get P l k dflt : raises_only P (get l k dflt).
Proof. unfold get. apply raises_only_bind; eauto with raises. Qed.

Lemma raises_only_setitem P l k v : raises_only P (setitem l k v).
Proof. unfold setitem. apply raises_only_bind; eauto with raises. Qed.

Lemma raises_only_getitem l k : raises_only subscript_fault (getitem l k).
Proof.
  unfold getitem. apply raises_only_bind; [eauto with raises |].
  intros d. destruct (d !! k); [eauto with raises |].
  by apply raises_only_raise.
Qed.

Lemma raises_only_add1 v : raises_only subscript_fault (add1 v).
Proof.
  destruct v; simpl; eauto with raises; by apply raises_only_raise.
Qed.

Lemma raises_only_iadd1_item l k : raises_only subscript_fault (iadd1_item l k).
Proof.
  unfold iadd1_item.
  apply raises_only_bind; [apply raises_only_getitem |]. intros v.
  apply raises_only_bind; [apply raises_only_add1 |]. intros v'.
  apply raises_only_setitem.
Qed.

#[global] Hint Resolve raises_only_len raises_only_get raises_only_setitem
  raises_only_iadd1_item : raises.

(** The only faults of [__init__] are those of opening the audit file. *)
Lemma init_raises open_sink cfg : raises_only sink_raised (__init__ open_sink cfg).
Proof.
  unfold __init__.
  apply raises_only_bind.
  { destruct cfg as [l |]; simpl; [| eauto with raises].
    apply raises_only_bind; [eauto with raises |].
    intros d. destruct (decide (size d = 0%nat)); eauto with raises. }
  intros c. apply raises_only_bind; [eauto with raises |].
  intros path. apply raises_only_bind; [eauto with raises |].
  intros strict. apply raises_only_bind.
  { unfold _setup_audit_logging. apply raises_only_bind; [| eauto with raises].
    unfold basicConfig. destruct (open_sink path) as [f |]; [| eauto with raises].
    apply raises_only_raise. by exists f. }
  intros _. apply raises_only_bind; eauto with raises.
Qed.

(** When the audit file cannot be opened, construction raises the fault of
    opening it: before the initialisation is logged and before any
    statistics dict is made. *)
Lemma init_run_nonempty_sink_fails open_sink l d w f :
  heap w !! l = Some d →
  size d ≠ 0%nat →
  open_sink (default (VStr "validation_audit.log") (d !! "audit_log_path")) = Some f →
  __init__ open_sink (Some l) w = Raise (sink_exn f) w.
Proof.
  intros Hd Hnz Hopen.
  unfold __init__, config_or_empty, get, deref, _setup_audit_logging, basicConfig,
    info, alloc.
  unfold_M. rewrite Hd.
  destruct (decide (size d = 0%nat)) as [Hz | _]; [done |].
  rewrite Hd. cbn. rewrite Hd. cbn. rewrite Hopen. by destruct w.
Qed.

Lemma init_run_falsy_sink_fails open_sink cfg w f :
  falsy_config cfg w →
  open_sink (VStr "validation_audit.log") = Some f →
  __init__ open_sink cfg w =
    Raise (sink_exn f) (World (<[fresh (dom (heap w)) := ∅]> (heap w)) (logger w)).
Proof.
  intros Hcfg Hopen.
  assert (Hc : config_or_empty cfg w
               = Ok (fresh (dom (heap w)))
                    (World (<[fresh (dom (heap w)) := ∅]> (heap w)) (logger w))).
  { destruct cfg as [l |]; simpl in *; [| done].
    unfold deref, alloc. unfold_M. rewrite Hcfg.
    destruct (decide (size (∅ : pydict) = 0%nat)) as [_ | Hnz]; [done |].
    by rewrite map_size_empty in Hnz. }
  unfold __init__, get, deref, _setup_audit_logging, basicConfig, info, alloc.
  unfold_M.
  rewrite Hc. simpl. rewrite lookup_insert_eq. simpl.
  rewrite lookup_insert_eq. simpl. rewrite !lookup_empty. simpl.
  by rewrite Hopen.
Qed.

(** The only faults of [validate_schema] and [detect_phi] are those of the
    counter updates. *)
Lemma validate_schema_raises self data schema :
  raises_only subscript_fault (validate_schema self data schema).
Proof.
  unfold validate_schema.
  apply raises_only_bind; [eauto with raises |]. intros n.
  apply raises_only_bind; [eauto with raises |]. intros _.
  apply raises_only_bind; [eauto with raises |]. intros _.
  apply raises_only_bind; eauto with raises.
Qed.

Lemma detect_phi_raises self data :
  raises_only subscript_fault (detect_phi self data).
Proof.
  unfold detect_phi.
  apply raises_only_bind; [eauto with raises |]. intros n.
  apply raises_only_bind; [eauto with raises |]. intros _.
  apply raises_only_bind; [| eauto with raises].
  destruct (0 <? length _)%nat; [| eauto with raises].
  apply raises_only_bind; eauto with raises.
Qed.

(** ** Construction from an empty configuration *)

(** C8, as stated, fails: [DataValidator({})], the validator built from an
    empty schema, raises no [ConfigurationError], whatever opening the audit
    file does; where the file can be opened it is constructed. *)
Lemma empty_schema_is_accepted :
  falsy_config (Some 1%positive) store_with_empty_schema ∧
  (∀ open_sink,
     ¬ raises_configuration_error open_sink (Some 1%positive) store_with_empty_schema) ∧
  ∃ self w', __init__ writable (Some 1%positive) store_with_empty_schema = Ok self w'.
Proof.
  assert (Hf : falsy_config (Some 1%positive) store_with_empty_schema).
  { apply lookup_insert_eq. }
  split; [exact Hf |]. split.
  - intros open_sink [w' H]. apply init_raises in H as [f Hf'].
    by destruct f.
  - eexists _, _. by apply init_run_falsy.
Qed.

(** C8, amended.  Constructing a validator from no configuration or from an
    empty one raises no [ConfigurationError].  Where [logging.basicConfig]
    can open the default audit file, the validator is constructed: it gets a
    new empty configuration dict, the default audit log path, strict mode on
    and zeroed counters.  Where it cannot, construction raises the fault of
    opening the file.  [ConfigurationError] is raised neither by
    [__init__], whatever the configuration and the file system, nor by
    [validate_schema] or [detect_phi] at call time. *)
Theorem construction_accepts_empty_configuration open_sink cfg w :
  falsy_config cfg w →
  (open_sink (VStr "validation_audit.log") = None →
   ∃ self w',
     __init__ open_sink cfg w = Ok self w' ∧
     heap w' !! config self = Some ∅ ∧
     audit_log_path self = VStr "validation_audit.log" ∧
     strict_mode self = VBool true ∧
     counters self w' 0 0 0 0) ∧
  (∀ f, open_sink (VStr "validation_audit.log") = Some f →
        ∃ w', __init__ open_sink cfg w = Raise (sink_exn f) w') ∧
  (∀ sink0 cfg0 w0 w', __init__ sink0 cfg0 w0 ≠ Raise ConfigurationError w') ∧
  (∀ self data schema w0 w',
     validate_schema self data schema w0 ≠ Raise ConfigurationError w') ∧
  (∀ self data w0 w', detect_phi self data w0 ≠ Raise ConfigurationError w').
Proof.
  intros Hf. split; [| split; [| split; [| split]]].
  - intros Hopen. eexists _, _. split; [by apply init_run_falsy |].
    cbn [heap config audit_log_path strict_mode].
    split.
    { rewrite lookup_insert_ne; [apply lookup_insert_eq |].
      apply fresh_ne. rewrite lookup_insert_eq. eauto. }
    split; [done |]. split; [done |].
    unfold counters. cbn. apply lookup_insert_eq.
  - intros f Hopen. eexists. by apply init_run_falsy_sink_fails.
  - intros sink0 cfg0 w0 w' H. apply init_raises in H as [f Hf']. by destruct f.
  - intros self data schema w0 w' H. by apply validate_schema_raises in H.
  - intros self data w0 w' H. by apply detect_phi_raises in H.
Qed.

Lemma construction_accepts_empty_configuration_witness :
  falsy_config (Some 1%positive) store_with_empty_schema ∧
  writable (VStr "validation_audit.log") = None ∧
  read_only (VStr "validation_audit.log") = Some (CannotOpen "PermissionError") ∧
  (∃ self w',
     __init__ writable (Some 1%positive) store_with_empty_schema = Ok self w' ∧
     heap w' !! config self = Some ∅ ∧
     audit_log_path self = VStr "validation_audit.log" ∧
     strict_mode self = VBool true ∧
     counters self w' 0 0 0 0) ∧
  (∃ w', __init__ read_only (Some 1%positive) store_with_empty_schema
         = Raise (OSError "PermissionError") w') ∧
  (∀ sink0 cfg0 w0 w', __init__ sink0 cfg0 w0 ≠ Raise ConfigurationError w') ∧
  (∀ self data schema w0 w',
     validate_schema self data schema w0 ≠ Raise ConfigurationError w') ∧
  (∀ self data w0 w', detect_phi self data w0 ≠ Raise ConfigurationError w').
Proof.
  assert (Hf : falsy_config (Some 1%positive) store_with_empty_schema).
  { apply lookup_insert_eq. }
  assert (Hw : writable (VStr "validation_audit.log") = None) by reflexivity.
  assert (Hr : read_only (VStr "validation_audit.log")
               = Some (CannotOpen "PermissionError")) by reflexivity.
  split; [exact Hf |]. split; [exact Hw |]. split; [exact Hr |].
  split.
  { exact (proj1 (construction_accepts_empty_configuration writable (Some 1%positive)
                    store_with_empty_schema Hf) Hw). }
  split.
  { exact (proj1 (proj2 (construction_accepts_empty_configuration read_only
                           (Some 1%positive) store_with_empty_schema Hf))
             (CannotOpen "PermissionError") Hr). }
  exact (proj2 (proj2 (construction_accepts_empty_configuration writable
                         (Some 1%positive) store_with_empty_schema Hf))).
Defined.

(** ** What a call leaves behind *)

(** One call on a validator with int counters, handed a record of the
    store: it returns; the counters are zeroed by a reset and move by one on
    a [validate_schema]; the logger gets [logged c] records, all at level
    INFO; no dict other than the statistics dict changes; the other
    attributes of the validator stay. *)
Lemma perform_effect c self w t p f wn :
  counters self w t p f wn →
  store_call w c →
  ∃ self' w' new,
    perform c self w = Ok self' w' ∧
    counters self' w'
      (if is_reset c then 0 else t + Z.of_nat (validations [c]))
      (if is_reset c then 0 else p + Z.of_nat (validations [c]))
      (if is_reset c then 0 else f)
      (if is_reset c then 0 else wn) ∧
    logger w' = (logger w ++ new)%list ∧
    length new = logged c ∧
    Forall (λ r, r.1 = INFO) new ∧
    (∀ l, is_Some (heap w !! l) → l ≠ validation_stats self →
          heap w' !! l = heap w !! l ∧ l ≠ validation_stats self') ∧
    (∀ l, is_Some (heap w !! l) → is_Some (heap w' !! l)) ∧
    config self' = config self ∧
    audit_log_path self' = audit_log_path self ∧
    strict_mode self' = strict_mode self.
Proof.
  intros Hs Hc. unfold counters in Hs.
  destruct c as [data schema | data | data | |]; simpl in Hc; unfold perform.
  - destruct Hc as [d Hd]. eexists self, _, [_]. unfold_M.
    rewrite (validate_schema_run _ _ _ _ _ _ _ _ _ Hd Hs).
    split; [done |]. split; [unfold counters; cbn; apply lookup_insert_eq |].
    split; [done |]. split; [done |]. split; [by repeat constructor |].
    cbn [heap]. split; [| split; [by intros; apply insert_allocated | done]].
    intros l _ Hne. by rewrite lookup_insert_ne.
  - destruct Hc as [d Hd]. eexists self, _, [_]. unfold_M.
    rewrite (detect_phi_run _ _ _ _ Hd).
    split; [done |]. split; [unfold counters; cbn; by rewrite !Z.add_0_r |].
    split; [done |]. split; [done |]. split; [by repeat constructor |]. done.
  - eexists self, _, [_]. unfold_M. rewrite validate_data_quality_run.
    assert (Hne : fresh (dom (heap w)) ≠ validation_stats self) by (apply fresh_ne; eauto).
    split; [done |]. split.
    { unfold counters. cbn. rewrite !Z.add_0_r. by rewrite lookup_insert_ne. }
    split; [done |]. split; [done |]. split; [by repeat constructor |].
    cbn [heap]. split; [| split; [by intros; apply insert_allocated | done]].
    intros l Hl Hnl. split; [| done]. rewrite lookup_insert_ne; [done |]. by apply fresh_ne.
  - eexists self, _, []. unfold_M. rewrite (get_validation_statistics_run _ _ _ Hs).
    assert (Hne : fresh (dom (heap w)) ≠ validation_stats self) by (apply fresh_ne; eauto).
    split; [done |]. split.
    { unfold counters. cbn. rewrite !Z.add_0_r. by rewrite lookup_insert_ne. }
    split; [by rewrite app_nil_r |]. split; [done |]. split; [done |].
    cbn [heap]. split; [| split; [by intros; apply insert_allocated | done]].
    intros l Hl Hnl. split; [| done]. rewrite lookup_insert_ne; [done |]. by apply fresh_ne.
  - eexists _, _, [_]. rewrite reset_statistics_run.
    split; [done |]. split; [unfold counters; cbn; apply lookup_insert_eq |].
    split; [done |]. split; [done |]. split; [by repeat constructor |].
    cbn [heap validation_stats]. split; [| split; [by intros; apply insert_allocated | done]].
    intros l Hl Hnl. split; [| by apply not_eq_sym, fresh_ne].
    rewrite lookup_insert_ne; [done |]. by apply fresh_ne.
Qed.

Lemma store_call_mono w w' c :
  (∀ l, is_Some (heap w !! l) → is_Some (heap w' !! l)) →
  store_call w c → store_call w' c.
Proof. intros Hmono. destruct c; simpl; auto. Qed.

Lemma since_reset_no_reset cs : has_reset cs = false → since_reset cs = validations cs.
Proof.
  destruct cs as [| c cs]; [done |]. simpl. intros H.
  apply orb_false_iff in H as [_ ->]. done.
Qed.

(** A sequence of calls on records of the store: every call returns; the
    counters end at the [validate_schema] calls made since the last reset
    (added to the initial counters when there was no reset); the logger is
    extended, by INFO records only; dicts other than the statistics dict
    are left alone. *)
Lemma perform_all_effect cs : ∀ self w t p f wn,
  counters self w t p f wn →
  Forall (store_call w) cs →
  ∃ self' w' new,
    perform_all cs self w = Ok self' w' ∧
    counters self' w'
      ((if has_reset cs then 0 else t) + Z.of_nat (since_reset cs))
      ((if has_reset cs then 0 else p) + Z.of_nat (since_reset cs))
      (if has_reset cs then 0 else f)
      (if has_reset cs then 0 else wn) ∧
    logger w' = (logger w ++ new)%list ∧
    length new = logged_all cs ∧
    Forall (λ r, r.1 = INFO) new ∧
    (∀ l, is_Some (heap w !! l) → l ≠ validation_stats self →
          heap w' !! l = heap w !! l ∧ l ≠ validation_stats self') ∧
    (∀ l, is_Some (heap w !! l) → is_Some (heap w' !! l)) ∧
    config self' = config self ∧
    audit_log_path self' = audit_log_path self ∧
    strict_mode self' = strict_mode self.
Proof.
  induction cs as [| c cs IH]; intros self w t p f wn Hs Hcs.
  - exists self, w, []. simpl. rewrite !Z.add_0_r, app_nil_r.
    repeat (split; [done |]). done.
  - apply Forall_cons in Hcs as [Hc Hcs].
    destruct (perform_effect c self w t p f wn Hs Hc)
      as (self1 & w1 & new1 & Hrun1 & Hs1 & Hlog1 & Hlen1 & Hinfo1
          & Hframe1 & Hmono1 & Hcfg1 & Hpath1 & Hstrict1).
    destruct (IH self1 w1 _ _ _ _ Hs1)
      as (self' & w' & new2 & Hrun & Hs' & Hlog & Hlen & Hinfo
          & Hframe & Hmono & Hcfg & Hpath & Hstrict).
    { eapply Forall_impl; [exact Hcs |]. intros c'. by apply store_call_mono. }
    exists self', w', (new1 ++ new2)%list.
    split; [simpl; unfold_M; by rewrite Hrun1 |].
    split.
    { clear - Hs'. cbn [has_reset existsb since_reset].
      fold (has_reset cs).
      destruct (has_reset cs) eqn:Hr.
      - by rewrite orb_true_r.
      - rewrite orb_false_r. rewrite (since_reset_no_reset cs Hr) in Hs'.
        destruct (is_reset c) eqn:Hc.
        + destruct c; try discriminate. exact Hs'.
        + replace (t + Z.of_nat (validations (c :: cs)))
            with (t + Z.of_nat (validations [c]) + Z.of_nat (validations cs))
            by (destruct c; simpl validations; lia).
          replace (p + Z.of_nat (validations (c :: cs)))
            with (p + Z.of_nat (validations [c]) + Z.of_nat (validations cs))
            by (destruct c; simpl validations; lia).
          exact Hs'. }
    split; [by rewrite Hlog, Hlog1, app_assoc |].
    split; [rewrite length_app, Hlen1, Hlen; done |].
    split; [by apply Forall_app |].
    split.
    { intros l Hl Hne. destruct (Hframe1 l Hl Hne) as [Heq1 Hne1].
      destruct (Hframe l (Hmono1 l Hl) Hne1) as [Heq Hne']. by rewrite Heq, Heq1. }
    split; [by intros l Hl; apply Hmono, Hmono1 |].
    split; [by rewrite Hcfg |]. split; [by rewrite Hpath | by rewrite Hstrict].
Qed.

(** A call that returned was handed a record of the store. *)
Lemma perform_Ok_store_call c self w self' w' :
  perform c self w = Ok self' w' → store_call w c.
Proof.
  intros H. destruct c as [data schema | data | data | |]; simpl; try done.
  - apply bind_Ok in H as (r & w1 & Hv & _).
    destruct (heap w !! data) eqn:Hd; [eauto |].
    by rewrite validate_schema_dangling in Hv.
  - apply bind_Ok in H as (r & w1 & Hv & _).
    destruct (heap w !! data) eqn:Hd; [eauto |].
    by rewrite detect_phi_dangling in Hv.
Qed.

Lemma test_validator_reachable r : reachable test_validator (after_setup r).
Proof. apply (reach_init writable (Some 2%positive) (store_with r)), setUpClass_run. Qed.

(** ** Further properties of the validator *)

(** X1 (frame of the methods).  On every validator, a sequence of calls on
    records of the store returns, and every dict that was in the store and
    is not the validator's statistics dict (records, schemas, the
    configuration, copies handed out earlier) holds the same items
    afterwards. *)
Theorem methods_change_only_the_statistics self w cs l d :
  reachable self w →
  Forall (store_call w) cs →
  heap w !! l = Some d →
  l ≠ validation_stats self →
  ∃ self' w',
    perform_all cs self w = Ok self' w' ∧
    heap w' !! l = Some d ∧
    l ≠ validation_stats self'.
Proof.
  intros Hr Hcs Hl Hne.
  destruct (reachable_counters_ok _ _ Hr) as (t & p & f & wn & Hs).
  destruct (perform_all_effect cs self w t p f wn Hs Hcs)
    as (self' & w' & new & Hrun & _ & _ & _ & _ & Hframe & _).
  exists self', w'. split; [done |].
  destruct (Hframe l) as [Heq Hne']; [by eauto | done |]. by rewrite Heq.
Qed.

Lemma methods_change_only_the_statistics_witness :
  reachable test_validator (after_setup valid_record) ∧
  Forall (store_call (after_setup valid_record))
         [ValidateSchema 1%positive 2%positive; ResetStatistics; DetectPhi 1%positive] ∧
  heap (after_setup valid_record) !! 1%positive = Some valid_record ∧
  1%positive ≠ validation_stats test_validator ∧
  ∃ self' w',
    perform_all [ValidateSchema 1%positive 2%positive; ResetStatistics; DetectPhi 1%positive]
                test_validator (after_setup valid_record) = Ok self' w' ∧
    heap w' !! 1%positive = Some valid_record ∧
    1%positive ≠ validation_stats self'.
Proof.
  assert (Hr := test_validator_reachable valid_record).
  assert (Hd := after_setup_record valid_record).
  assert (Hcs : Forall (store_call (after_setup valid_record))
            [ValidateSchema 1%positive 2%positive; ResetStatistics; DetectPhi 1%positive]).
  { repeat constructor; by eexists. }
  assert (Hne : 1%positive ≠ validation_stats test_validator) by done.
  split; [exact Hr |]. split; [exact Hcs |]. split; [exact Hd |]. split; [exact Hne |].
  exact (methods_change_only_the_statistics test_validator (after_setup valid_record)
           _ 1%positive valid_record Hr Hcs Hd Hne).
Defined.

(** X2 (the counters of the placeholder).  In every state a validator
    reaches, [passed] equals [total_validations], and [failed] and
    [warnings] are 0: no method ever counts a failure or a warning. *)
Theorem failed_and_warnings_stay_zero self w :
  reachable self w →
  ∃ t, 0 ≤ t ∧ counters self w t t 0 0.
Proof.
  induction 1 as [cfg w0 self w Hi | c self w self' w' _ IH Hc
                 | d self w l w' _ IH Ha | l d self w _ IH Hl Hne].
  - exists 0. split; [done |]. by eapply init_counters.
  - destruct IH as (t & Ht & Hs).
    destruct (perform_effect c self w t t 0 0 Hs (perform_Ok_store_call _ _ _ _ _ Hc))
      as (self1 & w1 & new & Hrun & Hs1 & _).
    rewrite Hc in Hrun. injection Hrun as <- <-.
    destruct (is_reset c).
    + by exists 0.
    + exists (t + Z.of_nat (validations [c])). split; [lia | done].
  - destruct IH as (t & Ht & Hs). exists t. split; [done |].
    unfold alloc in Ha. injection Ha as <- <-. unfold counters in *. simpl.
    rewrite lookup_insert_ne; [done |]. apply fresh_ne. eauto.
  - destruct IH as (t & Ht & Hs). exists t. split; [done |].
    unfold counters in *. simpl. by rewrite lookup_insert_ne.
Qed.

Lemma failed_and_warnings_stay_zero_witness :
  reachable test_validator (after_setup valid_record) ∧
  ∃ t, 0 ≤ t ∧ counters test_validator (after_setup valid_record) t t 0 0.
Proof.
  assert (Hr := test_validator_reachable valid_record).
  split; [exact Hr |].
  exact (failed_and_warnings_stay_zero test_validator (after_setup valid_record) Hr).
Defined.

(** X3 (counting across resets).  From any int counters, a sequence of
    calls on records of the store returns, and afterwards
    [total_validations] is the number of [validate_schema] calls made since
    the last [reset_statistics], added to the initial value when the
    sequence has no reset; [passed] moves the same way, and [failed] and
    [warnings] are 0 after a reset and unchanged without one. *)
Theorem counters_count_since_last_reset self w cs t p f wn :
  counters self w t p f wn →
  Forall (store_call w) cs →
  ∃ self' w',
    perform_all cs self w = Ok self' w' ∧
    counters self' w'
      ((if has_reset cs then 0 else t) + Z.of_nat (since_reset cs))
      ((if has_reset cs then 0 else p) + Z.of_nat (since_reset cs))
      (if has_reset cs then 0 else f)
      (if has_reset cs then 0 else wn).
Proof.
  intros Hs Hcs.
  destruct (perform_all_effect cs self w t p f wn Hs Hcs)
    as (self' & w' & new & Hrun & Hs' & _).
  by exists self', w'.
Qed.

Lemma counters_count_since_last_reset_witness :
  counters test_validator (after_setup valid_record) 0 0 0 0 ∧
  Forall (store_call (after_setup valid_record))
         [ValidateSchema 1%positive 2%positive; ValidateSchema 1%positive 2%positive;
          ResetStatistics; GetValidationStatistics; ValidateSchema 1%positive 2%positive] ∧
  ∃ self' w',
    perform_all
      [ValidateSchema 1%positive 2%positive; ValidateSchema 1%positive 2%positive;
       ResetStatistics; GetValidationStatistics; ValidateSchema 1%positive 2%positive]
      test_validator (after_setup valid_record) = Ok self' w' ∧
    counters self' w' 1 1 0 0.
Proof.
  assert (Hs := after_setup_counters valid_record).
  assert (Hd := after_setup_record valid_record).
  assert (Hcs : Forall (store_call (after_setup valid_record))
            [ValidateSchema 1%positive 2%positive; ValidateSchema 1%positive 2%positive;
             ResetStatistics; GetValidationStatistics; ValidateSchema 1%positive 2%positive]).
  { repeat constructor; by eexists. }
  split; [exact Hs |]. split; [exact Hcs |].
  exact (counters_count_since_last_reset test_validator (after_setup valid_record)
           _ 0 0 0 0 Hs Hcs).
Defined.

(** X4 (the audit log).  On every validator, a sequence of calls on records
    of the store returns and only appends to the logger: the earlier records
    stay, every method call but [get_validation_statistics] adds exactly one
    record, and every record added is at level INFO (no warning is ever
    logged). *)
Theorem audit_log_is_appended_to self w cs :
  reachable self w →
  Forall (store_call w) cs →
  ∃ self' w' new,
    perform_all cs self w = Ok self' w' ∧
    logger w' = (logger w ++ new)%list ∧
    length new = logged_all cs ∧
    Forall (λ r, r.1 = INFO) new.
Proof.
  intros Hr Hcs.
  destruct (reachable_counters_ok _ _ Hr) as (t & p & f & wn & Hs).
  destruct (perform_all_effect cs self w t p f wn Hs Hcs)
    as (self' & w' & new & Hrun & _ & Hlog & Hlen & Hinfo & _).
  by exists self', w', new.
Qed.

Lemma audit_log_is_appended_to_witness :
  reachable test_validator (after_setup valid_record) ∧
  Forall (store_call (after_setup valid_record))
         [ValidateSchema 1%positive 2%positive; GetValidationStatistics;
          DetectPhi 1%positive; ResetStatistics] ∧
  ∃ self' w' new,
    perform_all [ValidateSchema 1%positive 2%positive; GetValidationStatistics;
                 DetectPhi 1%positive; ResetStatistics]
                test_validator (after_setup valid_record) = Ok self' w' ∧
    logger w' = (logger (after_setup valid_record) ++ new)%list ∧
    length new = 3%nat ∧
    Forall (λ r, r.1 = INFO) new.
Proof.
  assert (Hr := test_validator_reachable valid_record).
  assert (Hd := after_setup_record valid_record).
  assert (Hcs : Forall (store_call (after_setup valid_record))
            [ValidateSchema 1%positive 2%positive; GetValidationStatistics;
             DetectPhi 1%positive; ResetStatistics]).
  { repeat constructor; by eexists. }
  split; [exact Hr |]. split; [exact Hcs |].
  exact (audit_log_is_appended_to test_validator (after_setup valid_record) _ Hr Hcs).
Defined.

(** X5 (a snapshot stays a snapshot).  The dict [get_validation_statistics]
    returns keeps the counters of the moment of the call: whatever calls
    follow on the validator (validations, resets), it still holds them,
    while a later [get_validation_statistics] returns another dict with the
    counters of that later moment. *)
Theorem statistics_snapshot_is_not_updated self w cs t p f wn :
  counters self w t p f wn →
  Forall (store_call w) cs →
  ∃ l w1 self2 w2 l2 w3,
    get_validation_statistics self w = Ok l w1 ∧
    perform_all cs self w1 = Ok self2 w2 ∧
    heap w2 !! l = Some (stats_dict t p f wn) ∧
    get_validation_statistics self2 w2 = Ok l2 w3 ∧
    l2 ≠ l ∧
    heap w3 !! l = Some (stats_dict t p f wn) ∧
    heap w3 !! l2 =
      Some (stats_dict ((if has_reset cs then 0 else t) + Z.of_nat (since_reset cs))
                       ((if has_reset cs then 0 else p) + Z.of_nat (since_reset cs))
                       (if has_reset cs then 0 else f)
                       (if has_reset cs then 0 else wn)).
Proof.
  intros Hs Hcs. unfold counters in Hs.
  set (l := fresh (dom (heap w))).
  set (w1 := World (<[l := stats_dict t p f wn]> (heap w)) (logger w)).
  assert (Hne : l ≠ validation_stats self) by (apply fresh_ne; eauto).
  assert (Hs1 : counters self w1 t p f wn).
  { unfold counters, w1. cbn. by rewrite lookup_insert_ne. }
  assert (Hl1 : heap w1 !! l = Some (stats_dict t p f wn)) by apply lookup_insert_eq.
  assert (Hcs1 : Forall (store_call w1) cs).
  { eapply Forall_impl; [exact Hcs |]. intros c. apply store_call_mono.
    intros k Hk. by apply insert_allocated. }
  destruct (perform_all_effect cs self w1 t p f wn Hs1 Hcs1)
    as (self2 & w2 & new & Hrun & Hs2 & _ & _ & _ & Hframe & _).
  destruct (Hframe l) as [Heq Hne2]; [by eauto | done |].
  unfold counters in Hs2.
  eexists l, w1, self2, w2, (fresh (dom (heap w2))), _.
  split; [by apply get_validation_statistics_run |].
  split; [exact Hrun |]. split; [by rewrite Heq |].
  split; [by apply get_validation_statistics_run |].
  assert (Hfr : fresh (dom (heap w2)) ≠ l).
  { apply fresh_ne. rewrite Heq. eauto. }
  split; [exact Hfr |]. cbn [heap].
  split; [by rewrite lookup_insert_ne, Heq | apply lookup_insert_eq].
Qed.

Lemma statistics_snapshot_is_not_updated_witness :
  counters test_validator (after_setup valid_record) 0 0 0 0 ∧
  Forall (store_call (after_setup valid_record))
         [ValidateSchema 1%positive 2%positive; ValidateSchema 1%positive 2%positive] ∧
  ∃ l w1 self2 w2 l2 w3,
    get_validation_statistics test_validator (after_setup valid_record) = Ok l w1 ∧
    perform_all [ValidateSchema 1%positive 2%positive; ValidateSchema 1%positive 2%positive]
                test_validator w1 = Ok self2 w2 ∧
    heap w2 !! l = Some (stats_dict 0 0 0 0) ∧
    get_validation_statistics self2 w2 = Ok l2 w3 ∧
    l2 ≠ l ∧
    heap w3 !! l = Some (stats_dict 0 0 0 0) ∧
    heap w3 !! l2 = Some (stats_dict 2 2 0 0).
Proof.
  assert (Hs := after_setup_counters valid_record).
  assert (Hd := after_setup_record valid_record).
  assert (Hcs : Forall (store_call (after_setup valid_record))
            [ValidateSchema 1%positive 2%positive; ValidateSchema 1%positive 2%positive]).
  { repeat constructor; by eexists. }
  split; [exact Hs |]. split; [exact Hcs |].
  exact (statistics_snapshot_is_not_updated test_validator (after_setup valid_record)
           _ 0 0 0 0 Hs Hcs).
Defined.

(** X6 (construction from a configuration dict).  [__init__] handed a dict
    opens the audit file named by the dict's [audit_log_path] item
    (["validation_audit.log"] when absent).  When that succeeds it returns:
    the audit log path and the strict mode are the dict's [audit_log_path]
    and [strict_mode] items, or their defaults (strict mode [True]); a
    non-empty dict is kept by reference as the validator's configuration, an
    empty one is not (the configuration is then another, new empty dict);
    the caller's dict is left as it was, the counters are zeroed and one
    INFO record is logged.  When opening the file raises (a [TypeError] for
    a path such as [123], an [OSError] for a directory that is missing),
    [__init__] raises the same, nothing is logged and the caller's dict is
    left as it was. *)
Theorem construction_reads_the_configuration open_sink l d w :
  heap w !! l = Some d →
  (open_sink (default (VStr "validation_audit.log") (d !! "audit_log_path")) = None →
   ∃ self w',
     __init__ open_sink (Some l) w = Ok self w' ∧
     audit_log_path self = default (VStr "validation_audit.log") (d !! "audit_log_path") ∧
     strict_mode self = default (VBool true) (d !! "strict_mode") ∧
     (size d ≠ 0%nat → config self = l) ∧
     (size d = 0%nat → config self ≠ l ∧ heap w' !! config self = Some ∅) ∧
     heap w' !! l = Some d ∧
     counters self w' 0 0 0 0 ∧
     logger w' = (logger w ++ [(INFO, "DataValidator initialized")])%list) ∧
  (∀ f,
     open_sink (default (VStr "validation_audit.log") (d !! "audit_log_path")) = Some f →
     ∃ w',
       __init__ open_sink (Some l) w = Raise (sink_exn f) w' ∧
       heap w' !! l = Some d ∧
       logger w' = logger w).
Proof.
  intros Hd. destruct (decide (size d = 0%nat)) as [Hz | Hnz].
  - apply map_size_empty_iff in Hz as ->.
    assert (Hf : falsy_config (Some l) w) by exact Hd.
    assert (Hl : fresh (dom (heap w)) ≠ l) by (apply fresh_ne; eauto).
    rewrite lookup_empty. cbn [default]. split.
    + intros Hopen.
      assert (Hl2 : fresh (dom (<[fresh (dom (heap w)) := ∅]> (heap w))) ≠ l).
      { apply fresh_ne. rewrite lookup_insert_ne by done. eauto. }
      assert (Hc2 : fresh (dom (<[fresh (dom (heap w)) := ∅]> (heap w)))
                    ≠ fresh (dom (heap w))).
      { apply fresh_ne. rewrite lookup_insert_eq. eauto. }
      eexists _, _. split; [by apply init_run_falsy |].
      cbn [audit_log_path strict_mode config heap logger].
      split; [done |]. split; [done |]. split; [done |].
      split.
      { intros _. split; [done |].
        rewrite lookup_insert_ne by done. apply lookup_insert_eq. }
      split; [by rewrite !lookup_insert_ne |].
      split; [unfold counters; cbn; apply lookup_insert_eq | done].
    + intros f Hopen. eexists. split; [by apply init_run_falsy_sink_fails |].
      cbn [heap logger]. split; [by rewrite lookup_insert_ne | done].
  - assert (Hl : fresh (dom (heap w)) ≠ l) by (apply fresh_ne; eauto).
    split.
    + intros Hopen. eexists _, _. split; [by apply init_run_nonempty |].
      cbn [audit_log_path strict_mode config heap logger].
      split; [done |]. split; [done |]. split; [done |]. split; [done |].
      split; [by rewrite lookup_insert_ne |].
      split; [unfold counters; cbn; apply lookup_insert_eq | done].
    + intros f Hopen. exists w.
      split; [by apply (init_run_nonempty_sink_fails _ _ d) |]. done.
Qed.

Lemma construction_reads_the_configuration_witness :
  heap (store_with valid_record) !! 2%positive = Some patient_schema ∧
  writable (default (VStr "validation_audit.log") (patient_schema !! "audit_log_path"))
    = None ∧
  heap store_with_numeric_path !! 1%positive
    = Some (<["audit_log_path" := VInt 123]> ∅) ∧
  paths_only (default (VStr "validation_audit.log")
                (<["audit_log_path" := VInt 123]> (∅ : pydict) !! "audit_log_path"))
    = Some NotAPath ∧
  (∃ self w',
     __init__ writable (Some 2%positive) (store_with valid_record) = Ok self w' ∧
     audit_log_path self
       = default (VStr "validation_audit.log") (patient_schema !! "audit_log_path") ∧
     strict_mode self = default (VBool true) (patient_schema !! "strict_mode") ∧
     (size patient_schema ≠ 0%nat → config self = 2%positive) ∧
     (size patient_schema = 0%nat →
        config self ≠ 2%positive ∧ heap w' !! config self = Some ∅) ∧
     heap w' !! 2%positive = Some patient_schema ∧
     counters self w' 0 0 0 0 ∧
     logger w' = (logger (store_with valid_record)
                  ++ [(INFO, "DataValidator initialized")])%list) ∧
  (∃ w',
     __init__ paths_only (Some 1%positive) store_with_numeric_path = Raise TypeError w' ∧
     heap w' !! 1%positive = Some (<["audit_log_path" := VInt 123]> ∅) ∧
     logger w' = logger store_with_numeric_path).
Proof.
  assert (Hd := store_with_schema valid_record).
  assert (Hw : writable (default (VStr "validation_audit.log")
                           (patient_schema !! "audit_log_path")) = None) by reflexivity.
  assert (Hn : heap store_with_numeric_path !! 1%positive
               = Some (<["audit_log_path" := VInt 123]> ∅)) by apply lookup_insert_eq.
  assert (Hp : paths_only (default (VStr "validation_audit.log")
                 (<["audit_log_path" := VInt 123]> (∅ : pydict) !! "audit_log_path"))
               = Some NotAPath).
  { by rewrite lookup_insert_eq. }
  split; [exact Hd |]. split; [exact Hw |]. split; [exact Hn |]. split; [exact Hp |].
  split.
  - exact (proj1 (construction_reads_the_configuration writable 2%positive patient_schema
                    (store_with valid_record) Hd) Hw).
  - exact (proj2 (construction_reads_the_configuration paths_only 1%positive
                    (<["audit_log_path" := VInt 123]> ∅) store_with_numeric_path Hn)
             NotAPath Hp).
Defined.

(** X7 (a fault between the two counter updates).  When the statistics dict
    holds an int [total_validations] but no [passed] item, [validate_schema]
    raises [KeyError('passed')], and it has by then written its audit line
    and added one to [total_validations]: the call is counted although it
    neither passed nor failed. *)
Theorem missing_passed_counter_leaves_total_incremented self w data schema d s t :
  heap w !! data = Some d →
  heap w !! validation_stats self = Some s →
  s !! "total_validations" = Some (VInt t) →
  s !! "passed" = None →
  validate_schema self data schema w =
    Raise (KeyError "passed")
          (World (<[validation_stats self := <["total_validations" := VInt (t + 1)]> s]> (heap w))
                 (logger w ++ [(INFO, "Schema validation requested for data with "
                                       +:+ pretty (size d) +:+ " fields")])).
Proof.
  intros Hd Hs Ht Hp. unfold validate_schema, len, deref, info. unfold_M.
  rewrite Hd. erewrite iadd1_item_int; [| exact Hs | exact Ht].
  unfold iadd1_item, getitem, deref. unfold_M. cbn [heap].
  rewrite lookup_insert_eq. by rewrite lookup_insert_ne, Hp.
Qed.

Lemma missing_passed_counter_leaves_total_incremented_witness :
  heap (after_setup_without_passed valid_record) !! 1%positive = Some valid_record ∧
  heap (after_setup_without_passed valid_record) !! validation_stats test_validator
    = Some (delete "passed" zero_stats) ∧
  delete "passed" zero_stats !! "total_validations" = Some (VInt 0) ∧
  delete "passed" zero_stats !! "passed" = None ∧
  validate_schema test_validator 1%positive 2%positive
                  (after_setup_without_passed valid_record) =
    Raise (KeyError "passed")
          (World (<[validation_stats test_validator :=
                      <["total_validations" := VInt (0 + 1)]> (delete "passed" zero_stats)]>
                    (heap (after_setup_without_passed valid_record)))
                 (logger (after_setup_without_passed valid_record)
                  ++ [(INFO, "Schema validation requested for data with "
                              +:+ pretty (size valid_record) +:+ " fields")])).
Proof.
  assert (Hd : heap (after_setup_without_passed valid_record) !! 1%positive
               = Some valid_record).
  { unfold after_setup_without_passed. cbn [heap]. rewrite lookup_insert_ne by done.
    apply store_with_record. }
  assert (Hs : heap (after_setup_without_passed valid_record)
                 !! validation_stats test_validator = Some (delete "passed" zero_stats)).
  { apply lookup_insert_eq. }
  assert (Ht : delete "passed" zero_stats !! "total_validations" = Some (VInt 0)).
  { by rewrite lookup_delete_ne. }
  assert (Hp : delete "passed" zero_stats !! "passed" = None).
  { apply lookup_delete_eq. }
  split; [exact Hd |]. split; [exact Hs |]. split; [exact Ht |]. split; [exact Hp |].
  exact (missing_passed_counter_leaves_total_incremented test_validator
           (after_setup_without_passed valid_record) 1%positive 2%positive
           valid_record (delete "passed" zero_stats) 0 Hd Hs Ht Hp).
Defined.

(** X8 (a new report per call).  [validate_data_quality] returns whatever it
    is handed, and every call returns a dict object that was not in the
    store before: after the caller changed one report in any way, the next
    call still returns the all-zero report, in another object, and the
    changed report keeps the caller's items. *)
Theorem quality_reports_are_new_objects self w data1 data2 d' :
  ∃ r1 w1 r2 w2,
    validate_data_quality self data1 w = Ok r1 w1 ∧
    heap w !! r1 = None ∧
    heap w1 !! r1 = Some quality_report_dict ∧
    validate_data_quality self data2 (caller_mutates r1 d' w1) = Ok r2 w2 ∧
    r2 ≠ r1 ∧
    heap w2 !! r2 = Some quality_report_dict ∧
    heap w2 !! r1 = Some d'.
Proof.
  eexists _, _, _, _. split; [apply validate_data_quality_run |].
  split; [apply fresh_unused |].
  cbn [heap]. split; [apply lookup_insert_eq |].
  split; [apply validate_data_quality_run |].
  cbn [heap caller_mutates].
  assert (Hne : fresh (dom (<[fresh (dom (heap w)) := d']>
                        (<[fresh (dom (heap w)) := quality_report_dict]> (heap w))))
                ≠ fresh (dom (heap w))).
  { apply fresh_ne. rewrite lookup_insert_eq. eauto. }
  split; [exact Hne |]. split; [apply lookup_insert_eq |].
  rewrite lookup_insert_ne by done. apply lookup_insert_eq.
Qed.

(** ** The CSV ingester *)

Lemma log_audit_event_run E self event_type details st :
  Ingestion.DataIngester._log_audit_event E self event_type details st =
    Ingestion.Returns tt
      (Ingestion.State (Ingestion.objects st)
         (Ingestion.records st ++ [audit_record E self (Ingestion.ticks st) event_type details])
         (S (Ingestion.ticks st))).
Proof. reflexivity. Qed.

(** The four ways through [ingest], as the environment answers. *)
Lemma ingest_run_missing E self st :
  Ingestion.path_exists E (Ingestion.source_path self) = false →
  Ingestion.CSVIngester.ingest E self st =
    Ingestion.Raises
      (Ingestion.Exc "FileNotFoundError" (not_found_message self) true)
      (Ingestion.State (Ingestion.objects st)
         (Ingestion.records st ++
            [audit_record E self (Ingestion.ticks st) "ingestion_start" (start_details self);
             audit_record E self (S (Ingestion.ticks st)) "ingestion_error"
               (error_details "FileNotFoundError" (not_found_message self));
             audit_record E self (S (S (Ingestion.ticks st))) "ingestion_error"
               (error_details "FileNotFoundError" (not_found_message self))])
         (S (S (S (Ingestion.ticks st))))).
Proof.
  intros Hex. unfold Ingestion.CSVIngester.ingest. unfold_IM.
  rewrite Hex. repeat (rewrite log_audit_event_run; cbn).
  by rewrite <- !app_assoc.
Qed.

(** The audit records a failure [e] met at clock reading [tick] adds: one
    error record when [except Exception] catches [e], none otherwise. *)
Lemma ingest_run_read_fails E self st e :
  Ingestion.path_exists E (Ingestion.source_path self) = true →
  Ingestion.read_csv E (Ingestion.source_path self) (Ingestion.read_csv_kwargs self) = inl e →
  Ingestion.CSVIngester.ingest E self st =
    Ingestion.Raises e
      (Ingestion.State (Ingestion.objects st)
         (Ingestion.records st ++
            [audit_record E self (Ingestion.ticks st) "ingestion_start" (start_details self);
             (INFO, "Reading CSV from: " +:+ Ingestion.source_path self)] ++
            (if Ingestion.is_Exception e
             then [audit_record E self (S (Ingestion.ticks st)) "ingestion_error"
                     (error_details (Ingestion.exc_name e) (Ingestion.exc_message e))]
             else []))
         (if Ingestion.is_Exception e then S (S (Ingestion.ticks st))
          else S (Ingestion.ticks st))).
Proof.
  intros Hex Hread. unfold Ingestion.CSVIngester.ingest. unfold_IM.
  rewrite Hex, Hread. repeat (rewrite log_audit_event_run; cbn).
  destruct (Ingestion.is_Exception e);
    repeat (rewrite log_audit_event_run; cbn); by rewrite <- !app_assoc.
Qed.

Lemma ingest_run_getsize_fails E self st df e :
  Ingestion.path_exists E (Ingestion.source_path self) = true →
  Ingestion.read_csv E (Ingestion.source_path self) (Ingestion.read_csv_kwargs self) = inr df →
  Ingestion.getsize E (Ingestion.source_path self) = inl e →
  Ingestion.CSVIngester.ingest E self st =
    Ingestion.Raises e
      (Ingestion.State (Ingestion.objects st)
         (Ingestion.records st ++
            [audit_record E self (Ingestion.ticks st) "ingestion_start" (start_details self);
             (INFO, "Reading CSV from: " +:+ Ingestion.source_path self)] ++
            (if Ingestion.is_Exception e
             then [audit_record E self (S (S (Ingestion.ticks st))) "ingestion_error"
                     (error_details (Ingestion.exc_name e) (Ingestion.exc_message e))]
             else []))
         (if Ingestion.is_Exception e then S (S (S (Ingestion.ticks st)))
          else S (S (Ingestion.ticks st)))).
Proof.
  intros Hex Hread Hsize. unfold Ingestion.CSVIngester.ingest. unfold_IM.
  rewrite Hex, Hread, Hsize. repeat (rewrite log_audit_event_run; cbn).
  destruct (Ingestion.is_Exception e);
    repeat (rewrite log_audit_event_run; cbn); by rewrite <- !app_assoc.
Qed.

Lemma ingest_run_success E self st df size d :
  Ingestion.path_exists E (Ingestion.source_path self) = true →
  Ingestion.read_csv E (Ingestion.source_path self) (Ingestion.read_csv_kwargs self) = inr df →
  Ingestion.getsize E (Ingestion.source_path self) = inr size →
  Ingestion.objects st !! Ingestion._metadata self = Some d →
  Ingestion.CSVIngester.ingest E self st =
    Ingestion.Returns df
      (Ingestion.State
         (<[Ingestion._metadata self :=
              Ingestion.update_items
                (ingestion_items df (Ingestion.utcnow_isoformat E (S (Ingestion.ticks st))) size) d]>
            (Ingestion.objects st))
         (Ingestion.records st ++
            [audit_record E self (Ingestion.ticks st) "ingestion_start" (start_details self);
             (INFO, "Reading CSV from: " +:+ Ingestion.source_path self);
             audit_record E self (S (S (Ingestion.ticks st))) "ingestion_complete"
               (complete_details df)])
         (S (S (S (Ingestion.ticks st))))).
Proof.
  intros Hex Hread Hsize Hd. unfold Ingestion.CSVIngester.ingest. unfold_IM.
  rewrite Hex, Hread, Hsize. repeat (rewrite log_audit_event_run; cbn).
  unfold Ingestion.deref. cbn. rewrite Hd.
  repeat (rewrite log_audit_event_run; cbn). by rewrite <- !app_assoc.
Qed.

Lemma ingest_run_dangling E self st df size :
  Ingestion.path_exists E (Ingestion.source_path self) = true →
  Ingestion.read_csv E (Ingestion.source_path self) (Ingestion.read_csv_kwargs self) = inr df →
  Ingestion.getsize E (Ingestion.source_path self) = inr size →
  Ingestion.objects st !! Ingestion._metadata self = None →
  Ingestion.CSVIngester.ingest E self st = Ingestion.Dangling.
Proof.
  intros Hex Hread Hsize Hd. unfold Ingestion.CSVIngester.ingest. unfold_IM.
  rewrite Hex, Hread, Hsize. repeat (rewrite log_audit_event_run; cbn).
  unfold Ingestion.deref. cbn. by rewrite Hd.
Qed.

(** The fixture is what construction leaves from the empty state. *)
Lemma csv_init_constructed path :
  Ingestion.CSVIngester.__init__ test_environment path [] (Ingestion.State ∅ [] 0)
  = Ingestion.Returns (csv_ingester path) (constructed_state path).
Proof. reflexivity. Qed.

(** X9 (a missing file).  When [os.path.exists] answers no, [ingest] raises
    [FileNotFoundError] with the message ["CSV file not found: <path>"]; no
    dict object changes, and three audit records are written: the start, and
    the failure twice, once by the existence check and once more by the
    [except] clause, which catches the exception the check raises. *)
Theorem ingest_missing_file_is_audited_twice E self st :
  Ingestion.path_exists E (Ingestion.source_path self) = false →
  ∃ st',
    Ingestion.CSVIngester.ingest E self st =
      Ingestion.Raises
        (Ingestion.Exc "FileNotFoundError" (not_found_message self) true) st' ∧
    Ingestion.objects st' = Ingestion.objects st ∧
    Ingestion.records st' =
      (Ingestion.records st ++
         [audit_record E self (Ingestion.ticks st) "ingestion_start" (start_details self);
          audit_record E self (S (Ingestion.ticks st)) "ingestion_error"
            (error_details "FileNotFoundError" (not_found_message self));
          audit_record E self (S (S (Ingestion.ticks st))) "ingestion_error"
            (error_details "FileNotFoundError" (not_found_message self))])%list.
Proof.
  intros Hex. eexists. split; [by apply ingest_run_missing |]. done.
Qed.

Lemma ingest_missing_file_is_audited_twice_witness :
  Ingestion.path_exists test_environment
    (Ingestion.source_path (csv_ingester "missing.csv")) = false ∧
  ∃ st',
    Ingestion.CSVIngester.ingest test_environment (csv_ingester "missing.csv")
      (constructed_state "missing.csv") =
      Ingestion.Raises
        (Ingestion.Exc "FileNotFoundError"
           (not_found_message (csv_ingester "missing.csv")) true) st' ∧
    Ingestion.objects st' = Ingestion.objects (constructed_state "missing.csv") ∧
    Ingestion.records st' =
      (Ingestion.records (constructed_state "missing.csv") ++
         [audit_record test_environment (csv_ingester "missing.csv") 1
            "ingestion_start" (start_details (csv_ingester "missing.csv"));
          audit_record test_environment (csv_ingester "missing.csv") 2
            "ingestion_error"
            (error_details "FileNotFoundError"
               (not_found_message (csv_ingester "missing.csv")));
          audit_record test_environment (csv_ingester "missing.csv") 3
            "ingestion_error"
            (error_details "FileNotFoundError"
               (not_found_message (csv_ingester "missing.csv")))])%list.
Proof.
  assert (Hex : Ingestion.path_exists test_environment
                  (Ingestion.source_path (csv_ingester "missing.csv")) = false).
  { reflexivity. }
  split; [exact Hex |].
  exact (ingest_missing_file_is_audited_twice test_environment
           (csv_ingester "missing.csv") (constructed_state "missing.csv") Hex).
Defined.

(** X10 (a successful read).  When the file exists, [pd.read_csv] returns a
    frame and [os.path.getsize] a size, [ingest] returns that frame; the
    metadata dict gets [rows_ingested] (the number of rows), [columns],
    [ingestion_timestamp] and [file_size_bytes] and keeps its other items;
    no other dict changes; and the audit trail gets the start record, the
    ["Reading CSV from"] line and a completion record carrying the row and
    column counts. *)
Theorem ingest_success_records_the_frame E self st df size d :
  Ingestion.path_exists E (Ingestion.source_path self) = true →
  Ingestion.read_csv E (Ingestion.source_path self) (Ingestion.read_csv_kwargs self) = inr df →
  Ingestion.getsize E (Ingestion.source_path self) = inr size →
  Ingestion.objects st !! Ingestion._metadata self = Some d →
  ∃ st' d',
    Ingestion.CSVIngester.ingest E self st = Ingestion.Returns df st' ∧
    Ingestion.objects st' !! Ingestion._metadata self = Some d' ∧
    d' !! "rows_ingested" = Some (VInt (Z.of_nat (length (Ingestion.df_rows df)))) ∧
    d' !! "columns" = Some (VList (Ingestion.df_columns df)) ∧
    d' !! "ingestion_timestamp"
      = Some (VStr (Ingestion.utcnow_isoformat E (S (Ingestion.ticks st)))) ∧
    d' !! "file_size_bytes" = Some (VInt size) ∧
    (∀ k, k ∉ ["rows_ingested"; "columns"; "ingestion_timestamp"; "file_size_bytes"] →
          d' !! k = d !! k) ∧
    (∀ l, l ≠ Ingestion._metadata self →
          Ingestion.objects st' !! l = Ingestion.objects st !! l) ∧
    Ingestion.records st' =
      (Ingestion.records st ++
         [audit_record E self (Ingestion.ticks st) "ingestion_start" (start_details self);
          (INFO, "Reading CSV from: " +:+ Ingestion.source_path self);
          audit_record E self (S (S (Ingestion.ticks st))) "ingestion_complete"
            (complete_details df)])%list.
Proof.
  intros Hex Hread Hsize Hd. eexists _, _.
  split; [by apply ingest_run_success |]. cbn [Ingestion.objects Ingestion.records].
  split; [apply lookup_insert_eq |].
  unfold ingestion_items, Ingestion.update_items. cbn [foldl fst snd].
  split; [rewrite !lookup_insert_ne by done; apply lookup_insert_eq |].
  split; [rewrite !lookup_insert_ne by done; apply lookup_insert_eq |].
  split; [rewrite !lookup_insert_ne by done; apply lookup_insert_eq |].
  split; [apply lookup_insert_eq |].
  split.
  { intros k Hk. rewrite !lookup_insert_ne; [done | ..];
      intros <-; apply Hk; set_solver. }
  split; [| done]. intros l Hl. by rewrite lookup_insert_ne.
Qed.

Lemma ingest_success_records_the_frame_witness :
  Ingestion.path_exists test_environment
    (Ingestion.source_path (csv_ingester "patients.csv")) = true ∧
  Ingestion.read_csv test_environment
    (Ingestion.source_path (csv_ingester "patients.csv"))
    (Ingestion.read_csv_kwargs (csv_ingester "patients.csv")) = inr patients_frame ∧
  Ingestion.getsize test_environment
    (Ingestion.source_path (csv_ingester "patients.csv")) = inr 42 ∧
  Ingestion.objects (constructed_state "patients.csv")
    !! Ingestion._metadata (csv_ingester "patients.csv")
    = Some (ingester_metadata "patients.csv") ∧
  ∃ st' d',
    Ingestion.CSVIngester.ingest test_environment (csv_ingester "patients.csv")
      (constructed_state "patients.csv") = Ingestion.Returns patients_frame st' ∧
    Ingestion.objects st' !! Ingestion._metadata (csv_ingester "patients.csv") = Some d' ∧
    d' !! "rows_ingested" = Some (VInt 2) ∧
    d' !! "columns" = Some (VList [VStr "patient_id"; VStr "age"]) ∧
    d' !! "ingestion_timestamp" = Some (VStr (Ingestion.utcnow_isoformat test_environment 2)) ∧
    d' !! "file_size_bytes" = Some (VInt 42) ∧
    (∀ k, k ∉ ["rows_ingested"; "columns"; "ingestion_timestamp"; "file_size_bytes"] →
          d' !! k = ingester_metadata "patients.csv" !! k) ∧
    (∀ l, l ≠ Ingestion._metadata (csv_ingester "patients.csv") →
          Ingestion.objects st' !! l = Ingestion.objects (constructed_state "patients.csv") !! l) ∧
    Ingestion.records st' =
      (Ingestion.records (constructed_state "patients.csv") ++
         [audit_record test_environment (csv_ingester "patients.csv") 1
            "ingestion_start" (start_details (csv_ingester "patients.csv"));
          (INFO, "Reading CSV from: " +:+ Ingestion.source_path (csv_ingester "patients.csv"));
          audit_record test_environment (csv_ingester "patients.csv") 3
            "ingestion_complete" (complete_details patients_frame)])%list.
Proof.
  assert (H1 : Ingestion.path_exists test_environment
                 (Ingestion.source_path (csv_ingester "patients.csv")) = true)
    by reflexivity.
  assert (H2 : Ingestion.read_csv test_environment
                 (Ingestion.source_path (csv_ingester "patients.csv"))
                 (Ingestion.read_csv_kwargs (csv_ingester "patients.csv"))
               = inr patients_frame) by reflexivity.
  assert (H3 : Ingestion.getsize test_environment
                 (Ingestion.source_path (csv_ingester "patients.csv")) = inr 42)
    by reflexivity.
  assert (H4 : Ingestion.objects (constructed_state "patients.csv")
                 !! Ingestion._metadata (csv_ingester "patients.csv")
               = Some (ingester_metadata "patients.csv")) by apply lookup_insert_eq.
  split; [exact H1 |]. split; [exact H2 |]. split; [exact H3 |]. split; [exact H4 |].
  exact (ingest_success_records_the_frame test_environment (csv_ingester "patients.csv")
           (constructed_state "patients.csv") patients_frame 42
           (ingester_metadata "patients.csv") H1 H2 H3 H4).
Defined.

(** X11 (failure is all or nothing).  Whenever [ingest] raises, whatever
    the exception and wherever it came from, no dict object has changed:
    the metadata is updated only by a call that returns. *)
Theorem ingest_failure_leaves_metadata E self st e st' :
  Ingestion.CSVIngester.ingest E self st = Ingestion.Raises e st' →
  Ingestion.objects st' = Ingestion.objects st.
Proof.
  intros H.
  destruct (Ingestion.path_exists E (Ingestion.source_path self)) eqn:Hex;
    [| rewrite (ingest_run_missing _ _ _ Hex) in H; by injection H as _ <-].
  destruct (Ingestion.read_csv E (Ingestion.source_path self)
              (Ingestion.read_csv_kwargs self)) as [e1 | df] eqn:Hread;
    [rewrite (ingest_run_read_fails _ _ _ _ Hex Hread) in H; by injection H as _ <- |].
  destruct (Ingestion.getsize E (Ingestion.source_path self)) as [e2 | size] eqn:Hsize;
    [rewrite (ingest_run_getsize_fails _ _ _ _ _ Hex Hread Hsize) in H;
     by injection H as _ <- |].
  destruct (Ingestion.objects st !! Ingestion._metadata self) as [d |] eqn:Hd.
  - by rewrite (ingest_run_success _ _ _ _ _ _ Hex Hread Hsize Hd) in H.
  - by rewrite (ingest_run_dangling _ _ _ _ _ Hex Hread Hsize Hd) in H.
Qed.

Lemma ingest_failure_leaves_metadata_witness :
  Ingestion.CSVIngester.ingest (constant_environment true (inr patients_frame) (inl file_vanished))
    (csv_ingester "patients.csv") (constructed_state "patients.csv")
  = Ingestion.Raises file_vanished
      (Ingestion.State (Ingestion.objects (constructed_state "patients.csv"))
         (Ingestion.records (constructed_state "patients.csv") ++
            [audit_record (constant_environment true (inr patients_frame) (inl file_vanished))
               (csv_ingester "patients.csv") 1 "ingestion_start"
               (start_details (csv_ingester "patients.csv"));
             (INFO, "Reading CSV from: patients.csv");
             audit_record (constant_environment true (inr patients_frame) (inl file_vanished))
               (csv_ingester "patients.csv") 3 "ingestion_error"
               (error_details "FileNotFoundError" "[Errno 2] No such file or directory")])
         4) ∧
  Ingestion.objects
    (Ingestion.State (Ingestion.objects (constructed_state "patients.csv"))
       (Ingestion.records (constructed_state "patients.csv") ++
          [audit_record (constant_environment true (inr patients_frame) (inl file_vanished))
             (csv_ingester "patients.csv") 1 "ingestion_start"
             (start_details (csv_ingester "patients.csv"));
           (INFO, "Reading CSV from: patients.csv");
           audit_record (constant_environment true (inr patients_frame) (inl file_vanished))
             (csv_ingester "patients.csv") 3 "ingestion_error"
             (error_details "FileNotFoundError" "[Errno 2] No such file or directory")])
       4)
  = Ingestion.objects (constructed_state "patients.csv").
Proof.
  assert (H : Ingestion.CSVIngester.ingest
                (constant_environment true (inr patients_frame) (inl file_vanished))
                (csv_ingester "patients.csv") (constructed_state "patients.csv")
              = Ingestion.Raises file_vanished
                  (Ingestion.State (Ingestion.objects (constructed_state "patients.csv"))
                     (Ingestion.records (constructed_state "patients.csv") ++
                        [audit_record
                           (constant_environment true (inr patients_frame) (inl file_vanished))
                           (csv_ingester "patients.csv") 1 "ingestion_start"
                           (start_details (csv_ingester "patients.csv"));
                         (INFO, "Reading CSV from: patients.csv");
                         audit_record
                           (constant_environment true (inr patients_frame) (inl file_vanished))
                           (csv_ingester "patients.csv") 3 "ingestion_error"
                           (error_details "FileNotFoundError"
                              "[Errno 2] No such file or directory")])
                     4)).
  { reflexivity. }
  split; [exact H |].
  exact (ingest_failure_leaves_metadata _ _ _ _ _ H).
Defined.

(** X12 (library exceptions pass through).  When the file exists and
    [pd.read_csv], or after it [os.path.getsize], raises [e], [ingest]
    raises that same [e].  The audit trail then holds the start record and
    the ["Reading CSV from"] line, followed by exactly one error record
    naming [type(e).__name__] and [str(e)] when [e] is an [Exception], and
    by nothing when it is not (a [KeyboardInterrupt], say): such a failure
    leaves no error record. *)
Theorem ingest_reraises_library_exception E self st e :
  Ingestion.path_exists E (Ingestion.source_path self) = true →
  Ingestion.read_csv E (Ingestion.source_path self) (Ingestion.read_csv_kwargs self) = inl e
  ∨ (∃ df,
       Ingestion.read_csv E (Ingestion.source_path self) (Ingestion.read_csv_kwargs self)
       = inr df ∧
       Ingestion.getsize E (Ingestion.source_path self) = inl e) →
  ∃ st' tick,
    Ingestion.CSVIngester.ingest E self st = Ingestion.Raises e st' ∧
    Ingestion.records st' =
      (Ingestion.records st ++
         [audit_record E self (Ingestion.ticks st) "ingestion_start" (start_details self);
          (INFO, "Reading CSV from: " +:+ Ingestion.source_path self)] ++
         (if Ingestion.is_Exception e
          then [audit_record E self tick "ingestion_error"
                  (error_details (Ingestion.exc_name e) (Ingestion.exc_message e))]
          else []))%list.
Proof.
  intros Hex [Hread | (df & Hread & Hsize)].
  - eexists _, _. split; [by apply ingest_run_read_fails |]. done.
  - eexists _, _. split; [by eapply ingest_run_getsize_fails |]. done.
Qed.

Lemma ingest_reraises_library_exception_witness :
  Ingestion.path_exists (constant_environment true (inl parser_error) (inr 42))
    (Ingestion.source_path (csv_ingester "patients.csv")) = true ∧
  (Ingestion.read_csv (constant_environment true (inl parser_error) (inr 42))
     (Ingestion.source_path (csv_ingester "patients.csv"))
     (Ingestion.read_csv_kwargs (csv_ingester "patients.csv")) = inl parser_error
   ∨ (∃ df,
        Ingestion.read_csv (constant_environment true (inl parser_error) (inr 42))
          (Ingestion.source_path (csv_ingester "patients.csv"))
          (Ingestion.read_csv_kwargs (csv_ingester "patients.csv")) = inr df ∧
        Ingestion.getsize (constant_environment true (inl parser_error) (inr 42))
          (Ingestion.source_path (csv_ingester "patients.csv")) = inl parser_error)) ∧
  ∃ st' tick,
    Ingestion.CSVIngester.ingest (constant_environment true (inl parser_error) (inr 42))
      (csv_ingester "patients.csv") (constructed_state "patients.csv")
    = Ingestion.Raises parser_error st' ∧
    Ingestion.records st' =
      (Ingestion.records (constructed_state "patients.csv") ++
         [audit_record (constant_environment true (inl parser_error) (inr 42))
            (csv_ingester "patients.csv") 1 "ingestion_start"
            (start_details (csv_ingester "patients.csv"));
          (INFO, "Reading CSV from: " +:+ Ingestion.source_path (csv_ingester "patients.csv"))] ++
         [audit_record (constant_environment true (inl parser_error) (inr 42))
            (csv_ingester "patients.csv") tick "ingestion_error"
            (error_details "ParserError" "Error tokenizing data")])%list.
Proof.
  assert (Hex : Ingestion.path_exists (constant_environment true (inl parser_error) (inr 42))
                  (Ingestion.source_path (csv_ingester "patients.csv")) = true)
    by reflexivity.
  assert (Hread : Ingestion.read_csv (constant_environment true (inl parser_error) (inr 42))
                    (Ingestion.source_path (csv_ingester "patients.csv"))
                    (Ingestion.read_csv_kwargs (csv_ingester "patients.csv"))
                  = inl parser_error
                  ∨ (∃ df,
                       Ingestion.read_csv (constant_environment true (inl parser_error) (inr 42))
                         (Ingestion.source_path (csv_ingester "patients.csv"))
                         (Ingestion.read_csv_kwargs (csv_ingester "patients.csv")) = inr df ∧
                       Ingestion.getsize (constant_environment true (inl parser_error) (inr 42))
                         (Ingestion.source_path (csv_ingester "patients.csv"))
                       = inl parser_error)).
  { left. reflexivity. }
  split; [exact Hex |]. split; [exact Hread |].
  exact (ingest_reraises_library_exception
           (constant_environment true (inl parser_error) (inr 42))
           (csv_ingester "patients.csv") (constructed_state "patients.csv")
           parser_error Hex Hread).
Defined.

(** X13 (the metadata is handed out as a copy).  While the metadata holds
    only strings and numbers (as it does from construction until an [ingest]
    has stored the [columns] list), [get_metadata] returns a new dict object
    with the items of the ingester's metadata and writes no audit record;
    whatever items the caller then sets, replaces or deletes in the returned
    dict, the ingester's metadata keeps its items and a later
    [get_metadata] returns them again. *)
Theorem get_metadata_returns_copy self st d :
  Ingestion.objects st !! Ingestion._metadata self = Some d →
  map_Forall (λ _ v, scalar v) d →
  ∃ l st1,
    Ingestion.DataIngester.get_metadata self st = Ingestion.Returns l st1 ∧
    Ingestion.objects st !! l = None ∧
    Ingestion.objects st1 !! l = Some d ∧
    Ingestion.records st1 = Ingestion.records st ∧
    ∀ d',
      let st2 := Ingestion.State (<[l := d']> (Ingestion.objects st1))
                   (Ingestion.records st1) (Ingestion.ticks st1) in
      Ingestion.objects st2 !! Ingestion._metadata self = Some d ∧
      ∃ l2 st3,
        Ingestion.DataIngester.get_metadata self st2 = Ingestion.Returns l2 st3 ∧
        l2 ≠ l ∧
        Ingestion.objects st3 !! l2 = Some d.
Proof.
  intros Hd _.
  assert (Hne : fresh (dom (Ingestion.objects st)) ≠ Ingestion._metadata self)
    by (apply fresh_ne; eauto).
  exists (fresh (dom (Ingestion.objects st))),
    (Ingestion.State (<[fresh (dom (Ingestion.objects st)) := d]> (Ingestion.objects st))
       (Ingestion.records st) (Ingestion.ticks st)).
  split.
  { unfold Ingestion.DataIngester.get_metadata, Ingestion.deref, Ingestion.alloc.
    unfold_IM. by rewrite Hd. }
  split; [apply fresh_unused |].
  cbn [Ingestion.objects Ingestion.records Ingestion.ticks].
  split; [apply lookup_insert_eq |]. split; [done |].
  intros d'. cbn zeta. cbn [Ingestion.objects Ingestion.records Ingestion.ticks].
  assert (Hd2 : <[fresh (dom (Ingestion.objects st)) := d']>
                  (<[fresh (dom (Ingestion.objects st)) := d]> (Ingestion.objects st))
                  !! Ingestion._metadata self = Some d).
  { by rewrite !lookup_insert_ne. }
  split; [exact Hd2 |].
  eexists _, _. split.
  { unfold Ingestion.DataIngester.get_metadata, Ingestion.deref, Ingestion.alloc.
    unfold_IM. cbn [Ingestion.objects]. rewrite Hd2. reflexivity. }
  cbn [Ingestion.objects].
  split; [| apply lookup_insert_eq].
  apply fresh_ne. rewrite lookup_insert_eq. eauto.
Qed.

Lemma get_metadata_returns_copy_witness :
  Ingestion.objects (constructed_state "patients.csv")
    !! Ingestion._metadata (csv_ingester "patients.csv")
    = Some (ingester_metadata "patients.csv") ∧
  map_Forall (λ _ v, scalar v) (ingester_metadata "patients.csv") ∧
  ∃ l st1,
    Ingestion.DataIngester.get_metadata (csv_ingester "patients.csv")
      (constructed_state "patients.csv") = Ingestion.Returns l st1 ∧
    Ingestion.objects (constructed_state "patients.csv") !! l = None ∧
    Ingestion.objects st1 !! l = Some (ingester_metadata "patients.csv") ∧
    Ingestion.records st1 = Ingestion.records (constructed_state "patients.csv") ∧
    ∀ d',
      let st2 := Ingestion.State (<[l := d']> (Ingestion.objects st1))
                   (Ingestion.records st1) (Ingestion.ticks st1) in
      Ingestion.objects st2 !! Ingestion._metadata (csv_ingester "patients.csv")
        = Some (ingester_metadata "patients.csv") ∧
      ∃ l2 st3,
        Ingestion.DataIngester.get_metadata (csv_ingester "patients.csv") st2
          = Ingestion.Returns l2 st3 ∧
        l2 ≠ l ∧
        Ingestion.objects st3 !! l2 = Some (ingester_metadata "patients.csv").
Proof.
  assert (Hd : Ingestion.objects (constructed_state "patients.csv")
                 !! Ingestion._metadata (csv_ingester "patients.csv")
               = Some (ingester_metadata "patients.csv")) by apply lookup_insert_eq.
  assert (Hsc : map_Forall (λ _ v, scalar v) (ingester_metadata "patients.csv")).
  { unfold ingester_metadata, Ingestion.update_items. cbn [foldl fst snd].
    repeat (apply map_Forall_insert_2; [exact I |]). apply map_Forall_empty. }
  split; [exact Hd |]. split; [exact Hsc |].
  exact (get_metadata_returns_copy (csv_ingester "patients.csv")
           (constructed_state "patients.csv") (ingester_metadata "patients.csv") Hd Hsc).
Defined.

Lemma assoc_dict_set k k' v kvs :
  assoc k (Ingestion.dict_set k' v kvs) = if decide (k' = k) then Some v else assoc k kvs.
Proof.
  induction kvs as [| [k0 v0] kvs IH]; simpl.
  - done.
  - destruct (decide (k0 = k')) as [-> | Hne]; simpl.
    + by destruct (decide (k' = k)).
    + destruct (decide (k0 = k)) as [-> | Hk0].
      * by destruct (decide (k' = k)); [subst |].
      * exact IH.
Qed.

(** Setting items on a dict: a key the items set takes their (last) value,
    any other key keeps the value it had. *)
Lemma assoc_foldl_dict_set k items : ∀ acc,
  assoc k (foldl (λ d kv, Ingestion.dict_set kv.1 kv.2 d) acc items) =
    match assoc k (Ingestion.dict_display items) with
    | Some v => Some v
    | None => assoc k acc
    end.
Proof.
  unfold Ingestion.dict_display.
  induction items as [| [k' v'] items IH]; intros acc; simpl; [done |].
  rewrite (IH (Ingestion.dict_set k' v' acc)), (IH [(k', v')]).
  destruct (assoc k (foldl _ [] items)); [done |].
  rewrite assoc_dict_set. simpl. by destruct (decide (k' = k)).
Qed.

(** X14 (what an audit entry holds).  The entry [_log_audit_event] renders
    holds every item of [details], and [details] win: a key of [details]
    carries the value [details] give it, also when it is one of the five
    standard keys ([timestamp], [event_type], [source_type], [source_path],
    [ingester]); any other key carries its standard value. *)
Theorem audit_entry_details_override self now event_type details k :
  assoc k (Ingestion.DataIngester.audit_entry self now event_type details) =
    match assoc k (Ingestion.dict_display details) with
    | Some v => Some v
    | None =>
        assoc k [("timestamp", VStr now);
                 ("event_type", VStr event_type);
                 ("source_type", VStr (Ingestion.source_type self));
                 ("source_path", VStr (Ingestion.source_path self));
                 ("ingester", VStr (Ingestion.class_name self))]
    end.
Proof.
  unfold Ingestion.DataIngester.audit_entry, Ingestion.dict_display.
  rewrite foldl_app. by rewrite assoc_foldl_dict_set.
Qed.

(** X15 (the audit trail of a call).  Whatever the environment answers, the
    first record [ingest] writes is the start record, whether the call
    returns or raises, an [Exception] or not; when it returns a frame, the
    last record is the completion record of that frame; when it raises an
    [Exception], the last record is an error record naming the type and
    message of the exception raised. *)
Theorem ingest_audit_trail_is_bracketed E self st :
  (∀ df st',
     Ingestion.CSVIngester.ingest E self st = Ingestion.Returns df st' →
     ∃ mid tick,
       Ingestion.records st' =
         (Ingestion.records st ++
            [audit_record E self (Ingestion.ticks st) "ingestion_start" (start_details self)] ++
            mid ++
            [audit_record E self tick "ingestion_complete" (complete_details df)])%list)
  ∧
  (∀ e st',
     Ingestion.CSVIngester.ingest E self st = Ingestion.Raises e st' →
     ∃ rest,
       Ingestion.records st' =
         (Ingestion.records st ++
            [audit_record E self (Ingestion.ticks st) "ingestion_start" (start_details self)] ++
            rest)%list ∧
       (Ingestion.is_Exception e = true →
        ∃ mid tick,
          rest =
            (mid ++
             [audit_record E self tick "ingestion_error"
                (error_details (Ingestion.exc_name e) (Ingestion.exc_message e))])%list)).
Proof.
  destruct (Ingestion.path_exists E (Ingestion.source_path self)) eqn:Hex.
  2:{ rewrite (ingest_run_missing _ _ _ Hex). split; [done |].
      intros e st' [= <- <-]. eexists [_; _]. split; [done |].
      intros _. by eexists [_], _. }
  destruct (Ingestion.read_csv E (Ingestion.source_path self)
              (Ingestion.read_csv_kwargs self)) as [e1 | df] eqn:Hread.
  { rewrite (ingest_run_read_fails _ _ _ _ Hex Hread). split; [done |].
    intros e st' [= <- <-]. cbn [Ingestion.records].
    destruct (Ingestion.is_Exception e1).
    - eexists [_; _]. split; [done |]. intros _. by eexists [_], _.
    - eexists [_]. split; [done |]. discriminate. }
  destruct (Ingestion.getsize E (Ingestion.source_path self)) as [e2 | size] eqn:Hsize.
  { rewrite (ingest_run_getsize_fails _ _ _ _ _ Hex Hread Hsize). split; [done |].
    intros e st' [= <- <-]. cbn [Ingestion.records].
    destruct (Ingestion.is_Exception e2).
    - eexists [_; _]. split; [done |]. intros _. by eexists [_], _.
    - eexists [_]. split; [done |]. discriminate. }
  destruct (Ingestion.objects st !! Ingestion._metadata self) as [d |] eqn:Hd.
  - rewrite (ingest_run_success _ _ _ _ _ _ Hex Hread Hsize Hd). split; [| done].
    intros df' st' [= <- <-]. by eexists [_], _.
  - by rewrite (ingest_run_dangling _ _ _ _ _ Hex Hread Hsize Hd).
Qed.

Lemma ingest_audit_trail_is_bracketed_witness :
  (∃ st',
     Ingestion.CSVIngester.ingest test_environment (csv_ingester "patients.csv")
       (constructed_state "patients.csv") = Ingestion.Returns patients_frame st' ∧
     ∃ mid tick,
       Ingestion.records st' =
         (Ingestion.records (constructed_state "patients.csv") ++
            [audit_record test_environment (csv_ingester "patients.csv") 1
               "ingestion_start" (start_details (csv_ingester "patients.csv"))] ++
            mid ++
            [audit_record test_environment (csv_ingester "patients.csv") tick
               "ingestion_complete" (complete_details patients_frame)])%list)
  ∧
  (∃ e st',
     Ingestion.CSVIngester.ingest test_environment (csv_ingester "missing.csv")
       (constructed_state "missing.csv") = Ingestion.Raises e st' ∧
     Ingestion.is_Exception e = true ∧
     ∃ rest,
       Ingestion.records st' =
         (Ingestion.records (constructed_state "missing.csv") ++
            [audit_record test_environment (csv_ingester "missing.csv") 1
               "ingestion_start" (start_details (csv_ingester "missing.csv"))] ++
            rest)%list ∧
       (Ingestion.is_Exception e = true →
        ∃ mid tick,
          rest =
            (mid ++
             [audit_record test_environment (csv_ingester "missing.csv") tick
                "ingestion_error"
                (error_details (Ingestion.exc_name e) (Ingestion.exc_message e))])%list))
  ∧
  (∃ st',
     Ingestion.CSVIngester.ingest
       (constant_environment true (inl keyboard_interrupt) (inr 42))
       (csv_ingester "patients.csv") (constructed_state "patients.csv")
     = Ingestion.Raises keyboard_interrupt st' ∧
     Ingestion.is_Exception keyboard_interrupt = false ∧
     ∃ rest,
       Ingestion.records st' =
         (Ingestion.records (constructed_state "patients.csv") ++
            [audit_record (constant_environment true (inl keyboard_interrupt) (inr 42))
               (csv_ingester "patients.csv") 1
               "ingestion_start" (start_details (csv_ingester "patients.csv"))] ++
            rest)%list ∧
       (Ingestion.is_Exception keyboard_interrupt = true →
        ∃ mid tick,
          rest =
            (mid ++
             [audit_record (constant_environment true (inl keyboard_interrupt) (inr 42))
                (csv_ingester "patients.csv") tick "ingestion_error"
                (error_details (Ingestion.exc_name keyboard_interrupt)
                   (Ingestion.exc_message keyboard_interrupt))])%list)).
Proof.
  split; [| split].
  - eexists. split; [reflexivity |].
    apply (proj1 (ingest_audit_trail_is_bracketed test_environment
                    (csv_ingester "patients.csv") (constructed_state "patients.csv"))
             patients_frame).
    reflexivity.
  - eexists _, _. split; [reflexivity |]. split; [reflexivity |].
    apply (proj2 (ingest_audit_trail_is_bracketed test_environment
                    (csv_ingester "missing.csv") (constructed_state "missing.csv"))).
    reflexivity.
  - eexists. split; [reflexivity |]. split; [reflexivity |].
    apply (proj2 (ingest_audit_trail_is_bracketed
                    (constant_environment true (inl keyboard_interrupt) (inr 42))
                    (csv_ingester "patients.csv") (constructed_state "patients.csv"))).
    reflexivity.
Defined.

Lemma csv_init_run E path kwargs st :
  Ingestion.CSVIngester.__init__ E path kwargs st =
    Ingestion.Returns
      (Ingestion.MkIngester path "csv" "CSVIngester" (fresh (dom (Ingestion.objects st))) kwargs)
      (Ingestion.State
         (<[fresh (dom (Ingestion.objects st)) :=
              Ingestion.update_items
                [("source_path", VStr path);
                 ("source_type", VStr "csv");
                 ("ingester_class", VStr "CSVIngester");
                 ("initialized_at", VStr (Ingestion.utcnow_isoformat E (Ingestion.ticks st)))] ∅]>
            (Ingestion.objects st))
         (Ingestion.records st)
         (S (Ingestion.ticks st))).
Proof. reflexivity. Qed.

(** X16 (construction does not look at the file).  [CSVIngester(path,
    **kwargs)] on a path that does not exist is constructed all the same:
    it has source type ['csv'], keeps the keyword arguments, writes no audit
    record, and its metadata is a new dict with the four construction-time
    items.  The missing file shows only at [ingest], which raises
    [FileNotFoundError], and [get_metadata] then still returns exactly those
    four items. *)
Theorem construction_does_not_check_the_file E path kwargs st :
  Ingestion.path_exists E path = false →
  ∃ self st1 st2 l st3,
    Ingestion.CSVIngester.__init__ E path kwargs st = Ingestion.Returns self st1 ∧
    Ingestion.source_path self = path ∧
    Ingestion.source_type self = "csv" ∧
    Ingestion.read_csv_kwargs self = kwargs ∧
    Ingestion.records st1 = Ingestion.records st ∧
    Ingestion.objects st !! Ingestion._metadata self = None ∧
    Ingestion.CSVIngester.ingest E self st1 =
      Ingestion.Raises (Ingestion.Exc "FileNotFoundError" (not_found_message self) true) st2 ∧
    Ingestion.DataIngester.get_metadata self st2 = Ingestion.Returns l st3 ∧
    Ingestion.objects st3 !! l =
      Some (Ingestion.update_items
              [("source_path", VStr path);
               ("source_type", VStr "csv");
               ("ingester_class", VStr "CSVIngester");
               ("initialized_at", VStr (Ingestion.utcnow_isoformat E (Ingestion.ticks st)))] ∅).
Proof.
  intros Hex. eexists _, _, _, _, _.
  split; [apply csv_init_run |]. cbn [Ingestion.source_path Ingestion.source_type
    Ingestion.read_csv_kwargs Ingestion.records Ingestion._metadata].
  split; [done |]. split; [done |]. split; [done |]. split; [done |].
  split; [apply fresh_unused |].
  split; [by apply ingest_run_missing |].
  unfold Ingestion.DataIngester.get_metadata, Ingestion.deref, Ingestion.alloc.
  unfold_IM. cbn [Ingestion.objects Ingestion._metadata].
  rewrite lookup_insert_eq. split; [reflexivity |].
  cbn [Ingestion.objects]. apply lookup_insert_eq.
Qed.

Lemma construction_does_not_check_the_file_witness :
  Ingestion.path_exists test_environment "missing.csv" = false ∧
  ∃ self st1 st2 l st3,
    Ingestion.CSVIngester.__init__ test_environment "missing.csv" []
      (Ingestion.State ∅ [] 0) = Ingestion.Returns self st1 ∧
    Ingestion.source_path self = "missing.csv" ∧
    Ingestion.source_type self = "csv" ∧
    Ingestion.read_csv_kwargs self = [] ∧
    Ingestion.records st1 = Ingestion.records (Ingestion.State ∅ [] 0) ∧
    Ingestion.objects (Ingestion.State ∅ [] 0) !! Ingestion._metadata self = None ∧
    Ingestion.CSVIngester.ingest test_environment self st1 =
      Ingestion.Raises (Ingestion.Exc "FileNotFoundError" (not_found_message self) true) st2 ∧
    Ingestion.DataIngester.get_metadata self st2 = Ingestion.Returns l st3 ∧
    Ingestion.objects st3 !! l =
      Some (Ingestion.update_items
              [("source_path", VStr "missing.csv");
               ("source_type", VStr "csv");
               ("ingester_class", VStr "CSVIngester");
               ("initialized_at", VStr (Ingestion.utcnow_isoformat test_environment 0))] ∅).
Proof.
  assert (Hex : Ingestion.path_exists test_environment "missing.csv" = false)
    by reflexivity.
  split; [exact Hex |].
  exact (construction_does_not_check_the_file test_environment "missing.csv" []
           (Ingestion.State ∅ [] 0) Hex).
Defined.
